(** * protocols.cc: the AODV / DSDV simulation drivers

    A shallow embedding of [finalproject/protocols.cc].  The two driver
    classes [AodvExample] and [DsdvExample] are glue code over the ns-3
    simulation framework: every method is a sequence of calls into that
    framework.  A method is embedded as a computation that

    - threads the driver object ([this]) and the position in the stream
      of values handed out by [rand()];
    - records every call into the framework, in program order, as an
      [Event];
    - stops at the first access outside a container or array, which C++
      leaves undefined.

    What the framework does behind its interface (routing, radio, the
    event scheduler) is outside this development. *)

From Stdlib Require Import ZArith Lia Ascii String.
From stdpp Require Import base tactics option list list_numbers strings pretty.

Local Open Scope Z_scope.

(** ** Machine integers *)

(** [uint32_t]: arithmetic is modulo 2^32. *)
Definition to_uint32 (z : Z) : Z := z mod 2 ^ 32.

(** [int] is 32 bits wide, two's complement.  Conversion of an out of
    range value, and overflow of [count++], wrap around.  (C++ leaves
    the overflow undefined; [count] gets there only with an array of
    2^31 - 1 entries or more.) *)
Definition to_int (z : Z) : Z := (z + 2 ^ 31) mod 2 ^ 32 - 2 ^ 31.

(** ** What the platform leaves open

    The C++ source does not fix: the floating point type [double]; how
    the stream extraction behind [CommandLine] reads a value from text;
    what ns-3 does with an option that the program did not register;
    the values [rand()] returns and their bound [RAND_MAX]; the order
    in which the three arguments of [Vector (..)] are evaluated.  All of
    it is a parameter of the development. *)

(** The three [rand()] calls of [Vector (rand()%10000, rand()%10000,
    rand()%10000)] are unsequenced: [xyz_order] says which call, in
    order of execution (0, 1, 2), gives x, y and z. *)
Inductive ArgOrder := XYZ | XZY | YXZ | YZX | ZXY | ZYX.

Class Platform := {
  double : Type;
  dbl_of_Z : Z → double;            (* conversion of an integer *)
  dbl_lit : string → double;        (* a floating point literal *)
  dbl_div : double → double → double;
  (* operator>> behind CommandLine::AddValue, per type of the variable;
     for bool the current value matters (an empty text toggles it) *)
  read_bool : bool → string → option bool;
  read_uint32 : string → option Z;
  read_double : string → option double;
  read_uint32_range : ∀ s v, read_uint32 s = Some v → 0 ≤ v < 2 ^ 32;
  (* an option that is not registered by the program: [Some code] when
     ns-3 ends the process with that exit code, [None] when it accepts
     the option (a global value or attribute default of its own) *)
  cmd_other : string → string → option Z;
  RAND_MAX : Z;
  RAND_MAX_range : 32767 ≤ RAND_MAX ≤ 2147483647;
  rand_value : nat → Z;             (* the n-th value returned by rand() *)
  rand_value_range : ∀ n, 0 ≤ rand_value n ≤ RAND_MAX;
  xyz_order : ArgOrder
}.

(** ** Data *)

Section Model.
Context `{Platform}.

(** The members that [CommandLine::AddValue] can be bound to. *)
Inductive Member := m_pcap | m_size | m_duration | m_nodeRM.

(** Both classes declare the same members.  A container is represented
    by its number of entries; entry [i] is named by its index. *)
Record Example := mkExample {
  size : Z;              (* uint32_t *)
  nodeRM : Z;            (* uint32_t *)
  duration : double;
  pcap : bool;
  nodes : Z;             (* NodeContainer *)
  devices : Z;           (* NetDeviceContainer *)
  interfaces : Z         (* Ipv4InterfaceContainer *)
}.

Definition set_size (v : Z) (e : Example) : Example :=
  mkExample v (nodeRM e) (duration e) (pcap e) (nodes e) (devices e) (interfaces e).
Definition set_nodeRM (v : Z) (e : Example) : Example :=
  mkExample (size e) v (duration e) (pcap e) (nodes e) (devices e) (interfaces e).
Definition set_duration (v : double) (e : Example) : Example :=
  mkExample (size e) (nodeRM e) v (pcap e) (nodes e) (devices e) (interfaces e).
Definition set_pcap (v : bool) (e : Example) : Example :=
  mkExample (size e) (nodeRM e) (duration e) v (nodes e) (devices e) (interfaces e).
Definition set_nodes (v : Z) (e : Example) : Example :=
  mkExample (size e) (nodeRM e) (duration e) (pcap e) v (devices e) (interfaces e).
Definition set_devices (v : Z) (e : Example) : Example :=
  mkExample (size e) (nodeRM e) (duration e) (pcap e) (nodes e) v (interfaces e).
Definition set_interfaces (v : Z) (e : Example) : Example :=
  mkExample (size e) (nodeRM e) (duration e) (pcap e) (nodes e) (devices e) v.

(** ns-3 values that the drivers only build and pass on. *)
Inductive Time := Seconds (d : double) | Time_minus (a b : Time).
Inductive AttributeValue :=
  | StringValue (s : string)
  | UintegerValue (n : Z)
  | BooleanValue (b : bool).
Inductive Vector := mkVector (x y z : double).
Inductive RoutingHelper := AodvHelper | DsdvHelper.

(** ** Calls into the framework *)

Inductive Event :=
  | std_cout (line : string)
  | CommandLine_AddValue (name help : string) (target : Member)
  | CommandLine_Parse (argv : list string)
  | SeedManager_SetSeed (seed : Z)
  | NodeContainer_Create (n : Z)
  | Names_Add (name : string) (node : Z)
  | MobilityHelper_SetPositionAllocator (type : string) (attrs : list (string * AttributeValue))
  | MobilityHelper_SetMobilityModel (type : string)
  | MobilityHelper_Install (n : Z)
  | WifiMacHelper_SetType (type : string)
  | YansWifiPhyHelper_Default
  | YansWifiChannelHelper_Default
  | YansWifiChannelHelper_Create
  | YansWifiPhyHelper_SetChannel
  | WifiHelper_SetRemoteStationManager (type : string) (attrs : list (string * AttributeValue))
  | WifiHelper_Install (n : Z)
  | YansWifiPhyHelper_EnablePcapAll (prefix : string)
  | InternetStackHelper_SetRoutingHelper (h : RoutingHelper)
  | InternetStackHelper_Install (n : Z)
  | Ipv4AddressHelper_SetBase (network mask : string)
  | Ipv4AddressHelper_Assign (n : Z)
  | OutputStreamWrapper_Create (file : string)
  | PrintRoutingTableAllAt (h : RoutingHelper) (t : Time) (file : string)
  | V4PingHelper_new (remote : Z)       (* the address of interface [remote] *)
  | V4PingHelper_SetAttribute (name : string) (v : AttributeValue)
  | V4PingHelper_Install (node : Z)
  | ApplicationContainer_Start (t : Time)
  | ApplicationContainer_Stop (t : Time)
  | Simulator_Schedule_SetPosition (delay : Time) (node : Z) (position : Vector)
  | Simulator_Stop (t : Time)
  | Simulator_Run
  | Simulator_Destroy.

(** ** Computations *)

Record State := mkState {
  this : Example;   (* the driver object *)
  draws : nat       (* number of rand() calls made so far *)
}.

(** Why a computation did not run to its end. *)
Inductive Reason :=
  | ExitCalled (code : Z)                        (* ns-3 ended the process *)
  | FatalError (msg : string)                    (* NS_FATAL_ERROR *)
  | OutOfBounds (container : string) (index : Z) (* undefined in C++ *)
  | DivisionByZero.                              (* undefined in C++ *)

Inductive Outcome (A : Type) :=
  | Done (a : A) (t : list Event) (s : State)
  | Stop (r : Reason) (t : list Event) (s : State).
Global Arguments Done {A} a t s.
Global Arguments Stop {A} r t s.

Definition M (A : Type) : Type := State → Outcome A.

Global Instance M_ret : MRet M := λ A a s, Done a [] s.
Global Instance M_bind : MBind M := λ A B f m s,
  match m s with
  | Done a t s' =>
      match f a s' with
      | Done b t' s'' => Done b (t ++ t') s''
      | Stop r t' s'' => Stop r (t ++ t') s''
      end
  | Stop r t s' => Stop r t s'
  end.

Definition emit (e : Event) : M unit := λ s, Done () [e] s.
Definition stop {A} (r : Reason) : M A := λ s, Stop r [] s.
Definition get_this : M Example := λ s, Done (this s) [] s.
Definition put_this (e : Example) : M unit := λ s, Done () [] (mkState e (draws s)).

(** [rand()]: hands out the next value of the stream. *)
Definition rand : M Z := λ s,
  Done (rand_value (draws s)) [] (mkState (this s) (S (draws s))).

(** [for (uint32_t i = 0; i < n; i++) body]: the body runs for
    i = 0, ..., n-1 with the loop's local variables [v]; neither [i] nor
    the bound is assigned in a body of this program. *)
Fixpoint for_each {V : Type} (l : list Z) (body : Z → V → M V) (v : V) : M V :=
  match l with
  | [] => mret v
  | i :: l' => v' ← body i v; for_each l' body v'
  end.

(** *** Containers and the local array

    [NodeContainer::Get] and [Ipv4InterfaceContainer::GetAddress] index
    a [std::vector] without a check, and so does the subscript of the
    local array [numbers]: an index outside the container stops the
    computation. *)
Definition nodes_Get (i : Z) : M Z :=
  e ← get_this;
  if decide (0 ≤ i < nodes e) then mret i else stop (OutOfBounds "nodes" i).

Definition interfaces_GetAddress (i : Z) : M Z :=
  e ← get_this;
  if decide (0 ≤ i < interfaces e) then mret i
  else stop (OutOfBounds "interfaces" i).

Definition array_get (a : list Z) (i : Z) : M Z :=
  if decide (0 ≤ i) then
    match a !! Z.to_nat i with
    | Some v => mret v
    | None => stop (OutOfBounds "numbers" i)
    end
  else stop (OutOfBounds "numbers" i).

Definition array_set (a : list Z) (i v : Z) : M (list Z) :=
  if decide (0 ≤ i < Z.of_nat (length a)) then mret (<[Z.to_nat i := v]> a)
  else stop (OutOfBounds "numbers" i).

(** [uint32_t numbers[len]]: an array of [len] entries on the stack, no
    cell of it written yet.  How much the stack holds is the platform's
    affair; the model grants it what it grants the containers, room for
    as many entries as the program has nodes.  The only lengths beyond
    that are the wrapped ones of [size < 2] (2^32 - 2 and 2^32 - 1
    entries, 16 GiB): there the declaration runs over the end of the
    stack. *)
Definition stack_array (len : Z) : M (list Z) :=
  e ← get_this;
  if decide (len ≤ size e) then mret (replicate (Z.to_nat len) 0)
  else stop (OutOfBounds "stack" len).

(** [nodes.Create (n)] appends [n] nodes. *)
Definition nodes_Create (n : Z) : M unit :=
  emit (NodeContainer_Create n);;
  e ← get_this; put_this (set_nodes (nodes e + n) e).

(** [devices = wifi.Install (wifiPhy, wifiMac, nodes)]: one device per
    node of the container. *)
Definition wifi_Install : M unit :=
  e ← get_this;
  emit (WifiHelper_Install (nodes e));;
  put_this (set_devices (nodes e) e).

(** [interfaces = address.Assign (devices)]: one interface per device. *)
Definition address_Assign : M unit :=
  e ← get_this;
  emit (Ipv4AddressHelper_Assign (devices e));;
  put_this (set_interfaces (devices e) e).

(** [Vector (rand()%10000, rand()%10000, rand()%10000)]: [d0], [d1],
    [d2] are the three values in the order the calls ran. *)
Definition rand_Vector (d0 d1 d2 : Z) : Vector :=
  let c (d : Z) := dbl_of_Z (Z.rem d 10000) in
  match xyz_order with
  | XYZ => mkVector (c d0) (c d1) (c d2)
  | XZY => mkVector (c d0) (c d2) (c d1)
  | YXZ => mkVector (c d1) (c d0) (c d2)
  | YZX => mkVector (c d2) (c d0) (c d1)
  | ZXY => mkVector (c d1) (c d2) (c d0)
  | ZYX => mkVector (c d2) (c d1) (c d0)
  end.

(** *** CommandLine

    ns-3's [CommandLine] is not part of the repository.  Its interface,
    as far as the drivers use it: [AddValue] binds an option name to a
    variable; [Parse] goes through [argv[1..]], takes [--name=value] or
    [-name=value] (the value is empty without [=]), and reads the value
    into the variable of the first item of that name.  A value that
    cannot be read ends the process with exit code 1; an argument
    without a leading dash is not an option and leaves the variables
    alone; a name that no item has is left to [cmd_other]. *)
Record Item := mkItem {
  item_name : string;
  item_help : string;
  item_target : Member
}.

Definition AddValue (name help : string) (target : Member)
    (cmd : list Item) : M (list Item) :=
  emit (CommandLine_AddValue name help target);;
  mret (cmd ++ [mkItem name help target]).

Definition strip_dashes (s : string) : option string :=
  match s with
  | String "-"%char (String "-"%char r) => Some r
  | String "-"%char r => Some r
  | _ => None
  end.

Fixpoint split_eq (s : string) : string * string :=
  match s with
  | EmptyString => (EmptyString, EmptyString)
  | String c r =>
      if Ascii.eqb c "="%char then (EmptyString, r)
      else let '(n, v) := split_eq r in (String c n, v)
  end.

Fixpoint find_item (name : string) (cmd : list Item) : option Item :=
  match cmd with
  | [] => None
  | it :: cmd' =>
      if String.eqb (item_name it) name then Some it else find_item name cmd'
  end.

(** Reading [text] into the variable an item is bound to. *)
Definition store (target : Member) (text : string) (e : Example) : option Example :=
  match target with
  | m_pcap => b ← read_bool (pcap e) text; Some (set_pcap b e)
  | m_size => n ← read_uint32 text; Some (set_size n e)
  | m_duration => d ← read_double text; Some (set_duration d e)
  | m_nodeRM => n ← read_uint32 text; Some (set_nodeRM n e)
  end.

Definition handle_argument (cmd : list Item) (name value : string) : M unit :=
  match find_item name cmd with
  | Some it =>
      e ← get_this;
      match store (item_target it) value e with
      | Some e' => put_this e'
      | None => stop (ExitCalled 1)
      end
  | None =>
      match cmd_other name value with
      | Some code => stop (ExitCalled code)
      | None => mret ()
      end
  end.

Definition handle_arg (cmd : list Item) (arg : string) : M unit :=
  match strip_dashes arg with
  | Some param => let '(name, value) := split_eq param in
                  handle_argument cmd name value
  | None => mret ()
  end.

Fixpoint handle_args (cmd : list Item) (args : list string) : M unit :=
  match args with
  | [] => mret ()
  | arg :: args' => handle_arg cmd arg;; handle_args cmd args'
  end.

(** [cmd.Parse (argc, argv)]: [argv] is the list of its [argc] strings,
    [argv[0]] the program name. *)
Definition Parse (cmd : list Item) (argv : list string) : M unit :=
  emit (CommandLine_Parse argv);;
  handle_args cmd (tail argv).

Definition trace {A} (o : Outcome A) : list Event :=
  match o with Done _ t _ => t | Stop _ t _ => t end.
End Model.

(** ** class AodvExample *)

Module AodvExample.
Section Methods.
Context `{Platform}.

(** The constructor: [size (5), nodeRM (1), duration (50), pcap (false)],
    the containers empty. *)
Definition AodvExample : Example :=
  mkExample 5 1 (dbl_of_Z 50) false 0 0 0.

Definition Configure (argv : list string) : M bool :=
  cmd ← AddValue "pcap" "Write PCAP traces." m_pcap [];
  cmd ← AddValue "size" "Number of nodes." m_size cmd;
  cmd ← AddValue "time" "Simulation time, s." m_duration cmd;
  cmd ← AddValue "fail" "Number of Nodes to move away." m_nodeRM cmd;
  Parse cmd argv;;
  e ← get_this;
  (if decide (size e = 45) then emit (SeedManager_SetSeed 8765)
   else emit (SeedManager_SetSeed 1234));;
  mret true.

Definition CreateNodes : M unit :=
  e ← get_this;
  emit (std_cout ("Creating " +:+ pretty (size e) +:+ " nodes "));;
  emit (std_cout "Nodes will be 175m apart.");;
  nodes_Create (size e);;
  for_each (seqZ 0 (size e)) (λ i _,
    n ← nodes_Get i;
    emit (Names_Add ("node(" +:+ pretty i +:+ ")") n)) ();;
  emit (MobilityHelper_SetPositionAllocator "ns3::RandomDiscPositionAllocator"
          [("X", StringValue "175.0");
           ("Y", StringValue "175.0");
           ("Rho", StringValue "ns3::UniformRandomVariable[Min=0|Max=125]")]);;
  emit (MobilityHelper_SetMobilityModel "ns3::ConstantPositionMobilityModel");;
  e ← get_this;
  emit (MobilityHelper_Install (nodes e)).

Definition CreateDevices : M unit :=
  emit (WifiMacHelper_SetType "ns3::AdhocWifiMac");;
  emit YansWifiPhyHelper_Default;;
  emit YansWifiChannelHelper_Default;;
  emit YansWifiChannelHelper_Create;;
  emit YansWifiPhyHelper_SetChannel;;
  emit (WifiHelper_SetRemoteStationManager "ns3::ConstantRateWifiManager"
          [("DataMode", StringValue "OfdmRate6Mbps");
           ("RtsCtsThreshold", UintegerValue 0)]);;
  wifi_Install;;
  e ← get_this;
  if pcap e then emit (YansWifiPhyHelper_EnablePcapAll "aodv") else mret ().

Definition InstallInternetStack : M unit :=
  emit (InternetStackHelper_SetRoutingHelper AodvHelper);;
  e ← get_this;
  emit (InternetStackHelper_Install (nodes e));;
  emit (Ipv4AddressHelper_SetBase "10.0.0.0" "255.0.0.0");;
  address_Assign;;
  emit (OutputStreamWrapper_Create "aodv.routes");;
  emit (PrintRoutingTableAllAt AodvHelper (Seconds (dbl_of_Z 8)) "aodv.routes").

(** The first loop of [InstallApplications]; [count] is an [int]. *)
Definition fill (half : Z) (i : Z) (v : Z * list Z) : M (Z * list Z) :=
  let '(count, numbers) := v in
  let count := if decide (i = half) then to_int (count + 1) else count in
  numbers ← array_set numbers i (to_uint32 count);
  mret (to_int (count + 1), numbers).

(** The second loop: [int k = rand() % (size-2)] is computed in
    [unsigned], then converted to [int]. *)
Definition shuffle (len : Z) (i : Z) (numbers : list Z) : M (list Z) :=
  r ← rand;
  if decide (len = 0) then stop DivisionByZero else
  let k := to_int (to_uint32 r mod len) in
  temp ← array_get numbers i;
  nk ← array_get numbers k;
  numbers ← array_set numbers i nk;
  array_set numbers k temp.

(** The third loop. *)
Definition relocate (numbers : list Z) (i : Z) (_ : unit) : M unit :=
  e ← get_this;
  n ← array_get numbers i;
  node ← nodes_Get n;
  d0 ← rand; d1 ← rand; d2 ← rand;
  emit (Simulator_Schedule_SetPosition
          (Seconds (dbl_div (duration e) (dbl_of_Z 2))) node (rand_Vector d0 d1 d2)).

Definition InstallApplications : M unit :=
  e ← get_this;
  remote ← interfaces_GetAddress (to_uint32 (size e - 1));
  emit (V4PingHelper_new remote);;
  emit (V4PingHelper_SetAttribute "Verbose" (BooleanValue true));;
  node ← nodes_Get (size e / 2);
  emit (V4PingHelper_Install node);;
  emit (ApplicationContainer_Start (Seconds (dbl_of_Z 0)));;
  emit (ApplicationContainer_Stop
          (Time_minus (Seconds (duration e)) (Seconds (dbl_lit "0.001"))));;
  let len := to_uint32 (size e - 2) in
  (* uint32_t numbers[size-2]; every cell is written before it is read *)
  numbers ← stack_array len;
  '(_, numbers) ← for_each (seqZ 0 len) (fill (size e / 2)) (0, numbers);
  numbers ← for_each (seqZ 0 len) (shuffle len) numbers;
  for_each (seqZ 0 (nodeRM e)) (relocate numbers) ().

Definition Run : M unit :=
  CreateNodes;;
  CreateDevices;;
  InstallInternetStack;;
  InstallApplications;;
  emit (std_cout "Starting simulation");;
  e ← get_this;
  emit (Simulator_Stop (Seconds (duration e)));;
  emit Simulator_Run;;
  emit Simulator_Destroy.

End Methods.
End AodvExample.

(** ** class DsdvExample *)

Module DsdvExample.
Section Methods.
Context `{Platform}.

Definition DsdvExample : Example :=
  mkExample 5 1 (dbl_of_Z 50) false 0 0 0.

Definition Configure (argv : list string) : M bool :=
  cmd ← AddValue "pcap" "Write PCAP traces." m_pcap [];
  cmd ← AddValue "size" "Number of nodes." m_size cmd;
  cmd ← AddValue "time" "Simulation time, s." m_duration cmd;
  cmd ← AddValue "fail" "Number of Nodes to move away." m_nodeRM cmd;
  Parse cmd argv;;
  e ← get_this;
  (if decide (size e = 45) then emit (SeedManager_SetSeed 8765)
   else emit (SeedManager_SetSeed 1234));;
  mret true.

Definition CreateNodes : M unit :=
  e ← get_this;
  emit (std_cout ("Creating " +:+ pretty (size e) +:+ " nodes "));;
  emit (std_cout "Nodes will be 175m apart.");;
  nodes_Create (size e);;
  for_each (seqZ 0 (size e)) (λ i _,
    n ← nodes_Get i;
    emit (Names_Add ("node(" +:+ pretty i +:+ ")") n)) ();;
  emit (MobilityHelper_SetPositionAllocator "ns3::RandomDiscPositionAllocator"
          [("X", StringValue "175.0");
           ("Y", StringValue "175.0");
           ("Rho", StringValue "ns3::UniformRandomVariable[Min=0|Max=125]")]);;
  emit (MobilityHelper_SetMobilityModel "ns3::ConstantPositionMobilityModel");;
  e ← get_this;
  emit (MobilityHelper_Install (nodes e)).

Definition CreateDevices : M unit :=
  emit (WifiMacHelper_SetType "ns3::AdhocWifiMac");;
  emit YansWifiPhyHelper_Default;;
  emit YansWifiChannelHelper_Default;;
  emit YansWifiChannelHelper_Create;;
  emit YansWifiPhyHelper_SetChannel;;
  emit (WifiHelper_SetRemoteStationManager "ns3::ConstantRateWifiManager"
          [("DataMode", StringValue "OfdmRate6Mbps");
           ("RtsCtsThreshold", UintegerValue 0)]);;
  wifi_Install;;
  e ← get_this;
  if pcap e then emit (YansWifiPhyHelper_EnablePcapAll "dsdv") else mret ().

Definition InstallInternetStack : M unit :=
  emit (InternetStackHelper_SetRoutingHelper DsdvHelper);;
  e ← get_this;
  emit (InternetStackHelper_Install (nodes e));;
  emit (Ipv4AddressHelper_SetBase "10.0.0.0" "255.0.0.0");;
  address_Assign;;
  emit (OutputStreamWrapper_Create "dsdv.routes");;
  emit (PrintRoutingTableAllAt DsdvHelper (Seconds (dbl_of_Z 8)) "dsdv.routes").

Definition fill (half : Z) (i : Z) (v : Z * list Z) : M (Z * list Z) :=
  let '(count, numbers) := v in
  let count := if decide (i = half) then to_int (count + 1) else count in
  numbers ← array_set numbers i (to_uint32 count);
  mret (to_int (count + 1), numbers).

Definition shuffle (len : Z) (i : Z) (numbers : list Z) : M (list Z) :=
  r ← rand;
  if decide (len = 0) then stop DivisionByZero else
  let k := to_int (to_uint32 r mod len) in
  temp ← array_get numbers i;
  nk ← array_get numbers k;
  numbers ← array_set numbers i nk;
  array_set numbers k temp.

Definition relocate (numbers : list Z) (i : Z) (_ : unit) : M unit :=
  e ← get_this;
  n ← array_get numbers i;
  node ← nodes_Get n;
  d0 ← rand; d1 ← rand; d2 ← rand;
  emit (Simulator_Schedule_SetPosition
          (Seconds (dbl_div (duration e) (dbl_of_Z 2))) node (rand_Vector d0 d1 d2)).

Definition InstallApplications : M unit :=
  e ← get_this;
  remote ← interfaces_GetAddress (to_uint32 (size e - 1));
  emit (V4PingHelper_new remote);;
  emit (V4PingHelper_SetAttribute "Verbose" (BooleanValue true));;
  node ← nodes_Get (size e / 2);
  emit (V4PingHelper_Install node);;
  emit (ApplicationContainer_Start (Seconds (dbl_of_Z 0)));;
  emit (ApplicationContainer_Stop
          (Time_minus (Seconds (duration e)) (Seconds (dbl_lit "0.001"))));;
  let len := to_uint32 (size e - 2) in
  numbers ← stack_array len;
  '(_, numbers) ← for_each (seqZ 0 len) (fill (size e / 2)) (0, numbers);
  numbers ← for_each (seqZ 0 len) (shuffle len) numbers;
  for_each (seqZ 0 (nodeRM e)) (relocate numbers) ().

Definition Run : M unit :=
  CreateNodes;;
  CreateDevices;;
  InstallInternetStack;;
  InstallApplications;;
  emit (std_cout "Starting simulation");;
  e ← get_this;
  emit (Simulator_Stop (Seconds (duration e)));;
  emit Simulator_Run;;
  emit Simulator_Destroy.

End Methods.
End DsdvExample.

(** ** main *)

Section Main.
Context `{Platform}.

(** [select] is the character read from [std::cin]; the result is the
    exit status.  [AodvExample test;] puts a freshly constructed object
    in place. *)
Definition main (select : ascii) (argv : list string) : M Z :=
  emit (std_cout "Enter 'a' for AODV, or 'd' for DSDV");;
  if Ascii.eqb select "a" then
    emit (std_cout "Initiating AODV test...");;
    put_this AodvExample.AodvExample;;
    ok ← AodvExample.Configure argv;
    (if negb ok then stop (FatalError "Configuration failed. Aborted.")
     else mret ());;
    AodvExample.Run;;
    mret 0
  else if Ascii.eqb select "d" then
    emit (std_cout "Initiating DSDV test...");;
    put_this DsdvExample.DsdvExample;;
    ok ← DsdvExample.Configure argv;
    (if negb ok then stop (FatalError "Configuration failed. Aborted.")
     else mret ());;
    DsdvExample.Run;;
    mret 0
  else
    emit (std_cout "ERROR: Incorrect selection, please run again.");;
    mret 0.

End Main.

(** ** A platform to run the model on

    Doubles are kept as the expressions that build them; values are read
    from decimal digits; an option the program did not register ends the
    process; [rand()] is a linear congruential generator. *)
Module Demo.

Inductive dbl := of_Z (z : Z) | lit (s : string) | div (a b : dbl).

Definition digit (c : ascii) : option Z :=
  let n := Z.of_nat (nat_of_ascii c) in
  if decide (48 ≤ n ≤ 57) then Some (n - 48) else None.

Fixpoint digits (acc : Z) (s : string) : option Z :=
  match s with
  | EmptyString => Some acc
  | String c r => d ← digit c; digits (10 * acc + d) r
  end.

Definition read_uint32 (s : string) : option Z :=
  match s with
  | EmptyString => None
  | _ => n ← digits 0 s; if decide (n < 2 ^ 32) then Some n else None
  end.

Definition read_bool (cur : bool) (s : string) : option bool :=
  if String.eqb s "" then Some (negb cur)
  else if String.eqb s "true" then Some true
  else if String.eqb s "false" then Some false
  else None.

Definition read_double (s : string) : option dbl :=
  match s with
  | EmptyString => None
  | _ => n ← digits 0 s; Some (of_Z n)
  end.

Definition rand_value (n : nat) : Z :=
  (Z.of_nat n * 1103515245 + 12345) mod 2147483648.

End Demo.

(** * Properties *)

(** ** The demonstration platform is a platform *)

Lemma Demo_digits_nonneg s : ∀ acc n, 0 ≤ acc → Demo.digits acc s = Some n → 0 ≤ n.
Proof.
  induction s as [|c r IH]; simpl; intros acc n Hacc Hd.
  - congruence.
  - destruct (Demo.digit c) as [d|] eqn:Hc; simpl in Hd; [|done].
    apply (IH (10 * acc + d)); [|done].
    unfold Demo.digit in Hc. case_decide; simplify_eq. lia.
Qed.

Lemma Demo_read_uint32_range s v : Demo.read_uint32 s = Some v → 0 ≤ v < 2 ^ 32.
Proof.
  unfold Demo.read_uint32. destruct s as [|c r]; [done|].
  destruct (Demo.digits 0 (String c r)) as [n|] eqn:Hd; simpl; [|done].
  case_decide; intros; simplify_eq.
  split; [|done]. by eapply Demo_digits_nonneg; [|exact Hd].
Qed.

Lemma Demo_rand_value_range n : 0 ≤ Demo.rand_value n ≤ 2147483647.
Proof.
  unfold Demo.rand_value.
  pose proof (Z.mod_pos_bound (Z.of_nat n * 1103515245 + 12345) 2147483648).
  lia.
Qed.

Lemma Demo_RAND_MAX_range : 32767 ≤ 2147483647 ≤ 2147483647.
Proof. lia. Qed.

Definition demo : Platform :=
  Build_Platform Demo.dbl Demo.of_Z Demo.lit Demo.div
    Demo.read_bool Demo.read_uint32 Demo.read_double Demo_read_uint32_range
    (λ _ _, Some 1) 2147483647 Demo_RAND_MAX_range
    Demo.rand_value Demo_rand_value_range XYZ.

(** ** Machine integers *)

Lemma to_uint32_id z : 0 ≤ z < 2 ^ 32 → to_uint32 z = z.
Proof. intros. unfold to_uint32. by apply Z.mod_small. Qed.

Lemma to_int_id z : - 2 ^ 31 ≤ z < 2 ^ 31 → to_int z = z.
Proof. intros. unfold to_int. rewrite Z.mod_small; lia. Qed.

(** Storing an [int] into a [uint32_t] gives the value modulo 2^32,
    whether or not the [int] had wrapped. *)
Lemma to_uint32_to_int z : to_uint32 (to_int z) = to_uint32 z.
Proof.
  unfold to_uint32, to_int.
  change (2 ^ 32) with 4294967296. change (2 ^ 31) with 2147483648.
  Z.to_euclidean_division_equations. lia.
Qed.

Lemma to_int_succ z : to_int (to_int z + 1) = to_int (z + 1).
Proof.
  unfold to_int.
  change (2 ^ 32) with 4294967296. change (2 ^ 31) with 2147483648.
  Z.to_euclidean_division_equations. lia.
Qed.

(** ** Sequencing *)

Section Sequencing.
Context `{Platform}.

(** The outcome of a computation that ran after the events [t0]. *)
Definition prepend {A} (t0 : list Event) (o : Outcome A) : Outcome A :=
  match o with
  | Done a t s => Done a (t0 ++ t) s
  | Stop r t s => Stop r (t0 ++ t) s
  end.

Lemma bind_Done {A B} (m : M A) (f : A → M B) s a t s' :
  m s = Done a t s' → (m ≫= f) s = prepend t (f a s').
Proof. intros Hm. unfold mbind, M_bind. rewrite Hm. by destruct (f a s'). Qed.

Lemma bind_Stop {A B} (m : M A) (f : A → M B) s r t s' :
  m s = Stop r t s' → (m ≫= f) s = Stop r t s'.
Proof. intros Hm. unfold mbind, M_bind. by rewrite Hm. Qed.

Lemma prepend_nil {A} (o : Outcome A) : prepend [] o = o.
Proof. by destruct o. Qed.

Lemma prepend_prepend {A} t1 t2 (o : Outcome A) :
  prepend t1 (prepend t2 o) = prepend (t1 ++ t2) o.
Proof. destruct o; simpl; by rewrite app_assoc. Qed.

Lemma for_each_app {V} (l1 l2 : list Z) (body : Z → V → M V) v s :
  for_each (l1 ++ l2) body v s =
  (v' ← for_each l1 body v; for_each l2 body v') s.
Proof.
  revert v s. induction l1 as [|i l1 IH]; intros v s; simpl.
  - unfold mbind, M_bind, mret, M_ret. by destruct (for_each l2 body v s).
  - unfold mbind, M_bind in *.
    destruct (body i v s) as [v1 t1 s1|r t1 s1]; [|done].
    rewrite IH.
    destruct (for_each l1 body v1 s1) as [v2 t2 s2|r t2 s2]; [|done].
    destruct (for_each l2 body v2 s2); by rewrite app_assoc.
Qed.

(** The checked accesses. *)
Lemma array_get_Done numbers i x s :
  0 ≤ i → numbers !! Z.to_nat i = Some x → array_get numbers i s = Done x [] s.
Proof. intros ? Hx. unfold array_get. rewrite decide_True by done. by rewrite Hx. Qed.

Lemma array_get_Stop numbers i s :
  Z.of_nat (length numbers) ≤ i →
  array_get numbers i s = Stop (OutOfBounds "numbers" i) [] s.
Proof.
  intros ?. unfold array_get. rewrite decide_True by lia.
  by rewrite lookup_ge_None_2 by lia.
Qed.

Lemma array_set_Done numbers i v s :
  0 ≤ i < Z.of_nat (length numbers) →
  array_set numbers i v s = Done (<[Z.to_nat i := v]> numbers) [] s.
Proof. intros ?. unfold array_set. by rewrite decide_True by done. Qed.

Lemma stack_array_Done len s :
  len ≤ size (this s) →
  stack_array len s = Done (replicate (Z.to_nat len) 0) [] s.
Proof.
  intros ?. unfold stack_array. erewrite bind_Done by reflexivity.
  by rewrite decide_True by done.
Qed.

Lemma stack_array_Stop len s :
  size (this s) < len → stack_array len s = Stop (OutOfBounds "stack" len) [] s.
Proof.
  intros ?. unfold stack_array. erewrite bind_Done by reflexivity.
  by rewrite decide_False by lia.
Qed.

Lemma nodes_Get_Done i s :
  0 ≤ i < nodes (this s) → nodes_Get i s = Done i [] s.
Proof.
  intros ?. unfold nodes_Get. erewrite bind_Done by reflexivity.
  by rewrite decide_True by done.
Qed.

Lemma nodes_Get_Stop i s :
  ¬ (0 ≤ i < nodes (this s)) → nodes_Get i s = Stop (OutOfBounds "nodes" i) [] s.
Proof.
  intros ?. unfold nodes_Get. erewrite bind_Done by reflexivity.
  by rewrite decide_False by done.
Qed.

Lemma interfaces_GetAddress_Done i s :
  0 ≤ i < interfaces (this s) → interfaces_GetAddress i s = Done i [] s.
Proof.
  intros ?. unfold interfaces_GetAddress. erewrite bind_Done by reflexivity.
  by rewrite decide_True by done.
Qed.

Lemma interfaces_GetAddress_Stop i s :
  ¬ (0 ≤ i < interfaces (this s)) →
  interfaces_GetAddress i s = Stop (OutOfBounds "interfaces" i) [] s.
Proof.
  intros ?. unfold interfaces_GetAddress. erewrite bind_Done by reflexivity.
  by rewrite decide_False by done.
Qed.

End Sequencing.

(** ** The loops of [InstallApplications] *)

Section Loops.
Context `{Platform}.

(** What the first loop stores in [numbers[i]]: the indices from 0 on,
    with the index [half] left out. *)
Definition skip (half i : Z) : Z := if decide (i < half) then i else i + 1.

(** The value of [count] when iteration [k] of the first loop begins. *)
Definition counter (half k : Z) : Z := if decide (k ≤ half) then k else k + 1.

Lemma fill_step half k numbers s :
  0 ≤ k < Z.of_nat (length numbers) → k + 1 < 2 ^ 32 →
  AodvExample.fill half k (to_int (counter half k), numbers) s =
  Done (to_int (counter half (k + 1)), <[Z.to_nat k := skip half k]> numbers) [] s.
Proof.
  intros Hk Hmax. unfold AodvExample.fill, array_set.
  destruct (decide (0 ≤ k < Z.of_nat (length numbers))); [|lia].
  assert (to_uint32 (if decide (k = half)
                     then to_int (to_int (counter half k) + 1)
                     else to_int (counter half k)) = skip half k) as ->.
  { unfold counter, skip. repeat case_decide; try lia;
      rewrite ?to_int_succ, to_uint32_to_int; apply to_uint32_id; lia. }
  assert (to_int ((if decide (k = half)
                   then to_int (to_int (counter half k) + 1)
                   else to_int (counter half k)) + 1)
          = to_int (counter half (k + 1))) as ->.
  { unfold counter, to_int.
    change (2 ^ 32) with 4294967296. change (2 ^ 31) with 2147483648.
    repeat case_decide; try lia; Z.to_euclidean_division_equations; lia. }
  done.
Qed.

Lemma fill_loop half (n : nat) : ∀ k numbers s,
  0 ≤ k → k + Z.of_nat n < 2 ^ 32 →
  length numbers = (Z.to_nat k + n)%nat →
  for_each (seqZ k (Z.of_nat n)) (AodvExample.fill half)
    (to_int (counter half k), numbers) s =
  Done (to_int (counter half (k + Z.of_nat n)),
        take (Z.to_nat k) numbers ++ (skip half <$> seqZ k (Z.of_nat n))) [] s.
Proof.
  induction n as [|n IH]; intros k numbers s Hk Hmax Hlen.
  - rewrite seqZ_nil by lia. simpl.
    rewrite take_ge by lia. rewrite app_nil_r, Z.add_0_r. done.
  - rewrite seqZ_cons by lia. simpl for_each.
    erewrite bind_Done; [|apply fill_step; lia].
    replace (Z.pred (Z.of_nat (S n))) with (Z.of_nat n) by lia.
    rewrite prepend_nil. unfold Z.succ. rewrite IH; [|lia|lia|].
    + replace (k + 1 + Z.of_nat n) with (k + Z.of_nat (S n)) by lia.
      replace (Z.to_nat (k + 1)) with (S (Z.to_nat k)) by lia.
      erewrite take_S_r; [|apply list_lookup_insert_eq; lia].
      rewrite take_insert_ge by lia. rewrite <- app_assoc. done.
    + rewrite length_insert. lia.
Qed.

Lemma shuffle_step len i numbers s :
  Z.of_nat (length numbers) = len → 0 ≤ i < len →
  ∃ numbers', numbers' ≡ₚ numbers ∧
    AodvExample.shuffle len i numbers s =
    Done numbers' [] (mkState (this s) (S (draws s))).
Proof.
  intros Hlen Hi.
  pose proof (rand_value_range (draws s)) as Hr.
  pose proof RAND_MAX_range as Hmax.
  set (r := rand_value (draws s)) in *.
  assert (to_int (to_uint32 r `mod` len) = r `mod` len ∧ 0 ≤ r `mod` len < len)
    as [Hk Hkr].
  { rewrite to_uint32_id by lia.
    pose proof (Z.mod_pos_bound r len). pose proof (Z.mod_le r len).
    split; [apply to_int_id|]; lia. }
  destruct (lookup_lt_is_Some_2 numbers (Z.to_nat i)) as [x Hx]; [lia|].
  destruct (lookup_lt_is_Some_2 numbers (Z.to_nat (r `mod` len))) as [y Hy]; [lia|].
  exists (<[Z.to_nat (r `mod` len) := x]> (<[Z.to_nat i := y]> numbers)).
  split; [by apply Permutation_insert_swap|].
  unfold AodvExample.shuffle.
  erewrite bind_Done by reflexivity. simpl this. simpl draws. fold r.
  rewrite decide_False by lia. rewrite Hk.
  erewrite bind_Done by (by apply array_get_Done; [lia|]).
  erewrite bind_Done by (by apply array_get_Done; [lia|]).
  erewrite bind_Done by (apply array_set_Done; lia).
  rewrite array_set_Done by (rewrite length_insert; lia).
  done.
Qed.

Lemma shuffle_loop len (l : list Z) : ∀ numbers s,
  Z.of_nat (length numbers) = len → Forall (λ i, 0 ≤ i < len) l →
  ∃ numbers', numbers' ≡ₚ numbers ∧
    for_each l (AodvExample.shuffle len) numbers s =
    Done numbers' [] (mkState (this s) (draws s + length l)).
Proof.
  induction l as [|i l IH]; intros numbers s Hlen Hl.
  - exists numbers. split; [done|]. simpl. destruct s. simpl.
    by rewrite Nat.add_0_r.
  - inversion Hl as [|?? Hi Hl']; subst.
    destruct (shuffle_step (Z.of_nat (length numbers)) i numbers s)
      as (n1 & Hp1 & E1); [done..|].
    destruct (IH n1 (mkState (this s) (S (draws s)))) as (n2 & Hp2 & E2);
      [by rewrite Hp1|done|].
    exists n2. split; [by rewrite Hp2|].
    simpl for_each. erewrite bind_Done by exact E1.
    rewrite E2. simpl. do 2 f_equal. lia.
Qed.

(** The call the third loop makes for node [n] when [d] values of the
    random stream are used up, and the calls it makes for the nodes [ns]
    one after the other. *)
Definition relocation (e : Example) (d : nat) (n : Z) : Event :=
  Simulator_Schedule_SetPosition
    (Seconds (dbl_div (duration e) (dbl_of_Z 2))) n
    (rand_Vector (rand_value d) (rand_value (S d)) (rand_value (S (S d)))).

Fixpoint relocations (e : Example) (d : nat) (ns : list Z) : list Event :=
  match ns with
  | [] => []
  | n :: ns' => relocation e d n :: relocations e (3 + d) ns'
  end.

Lemma relocate_step numbers i x s :
  0 ≤ i → numbers !! Z.to_nat i = Some x → 0 ≤ x < nodes (this s) →
  AodvExample.relocate numbers i () s =
  Done () [relocation (this s) (draws s) x] (mkState (this s) (3 + draws s)).
Proof.
  intros Hi Hx Hn. unfold AodvExample.relocate.
  erewrite bind_Done by reflexivity.
  erewrite bind_Done by (by apply array_get_Done).
  erewrite bind_Done by (by apply nodes_Get_Done).
  do 3 erewrite bind_Done by reflexivity.
  done.
Qed.

Lemma relocate_loop numbers (n : nat) : ∀ k s,
  0 ≤ k → (Z.to_nat k + n ≤ length numbers)%nat →
  Forall (λ x, 0 ≤ x < nodes (this s)) numbers →
  for_each (seqZ k (Z.of_nat n)) (AodvExample.relocate numbers) () s =
  Done () (relocations (this s) (draws s) (take n (drop (Z.to_nat k) numbers)))
    (mkState (this s) (3 * n + draws s)).
Proof.
  induction n as [|n IH]; intros k s Hk Hlen Hall.
  - rewrite seqZ_nil by lia. simpl. by destruct s.
  - rewrite seqZ_cons by lia. simpl for_each.
    destruct (lookup_lt_is_Some_2 numbers (Z.to_nat k)) as [x Hx]; [lia|].
    erewrite bind_Done; [|apply relocate_step; [done..|]]; last first.
    { by eapply Forall_lookup_1 in Hall. }
    replace (Z.pred (Z.of_nat (S n))) with (Z.of_nat n) by lia.
    rewrite IH; [|lia|lia|done]. cbn [prepend this draws app].
    replace (Z.to_nat (Z.succ k)) with (S (Z.to_nat k)) by lia.
    rewrite (drop_S numbers x (Z.to_nat k)) by done.
    cbn [take relocations]. f_equal. f_equal. lia.
Qed.

(** The calls that install the ping application. *)
Definition ping_events (e : Example) : list Event :=
  [ V4PingHelper_new (size e - 1);
    V4PingHelper_SetAttribute "Verbose" (BooleanValue true);
    V4PingHelper_Install (size e / 2);
    ApplicationContainer_Start (Seconds (dbl_of_Z 0));
    ApplicationContainer_Stop
      (Time_minus (Seconds (duration e)) (Seconds (dbl_lit "0.001"))) ].

(** The contents of [numbers] after the first loop. *)
Definition candidates (e : Example) : list Z :=
  skip (size e / 2) <$> seqZ 0 (to_uint32 (size e - 2)).

(** The containers as [CreateNodes], [CreateDevices] and
    [InstallInternetStack] leave them. *)
Definition ready (e : Example) : Prop :=
  nodes e = size e ∧ interfaces e = size e.

(** With two nodes or more, [InstallApplications] gets to its third
    loop, with a rearrangement of [candidates] in [numbers]. *)
Lemma InstallApplications_third_loop s :
  2 ≤ size (this s) < 2 ^ 32 → ready (this s) →
  ∃ numbers, numbers ≡ₚ candidates (this s) ∧
    AodvExample.InstallApplications s =
    prepend (ping_events (this s))
      (for_each (seqZ 0 (nodeRM (this s))) (AodvExample.relocate numbers) ()
         (mkState (this s)
            (draws s + Z.to_nat (to_uint32 (size (this s) - 2))))).
Proof.
  intros Hsize [Hnodes Hifs].
  set (e := this s) in *. set (len := to_uint32 (size e - 2)).
  assert (0 ≤ len < 2 ^ 32) as Hlen by (by apply Z.mod_pos_bound).
  assert (0 ≤ size e / 2 < size e) as Hhalf.
  { split; [apply Z.div_pos; lia|apply Z.div_lt_upper_bound; lia]. }
  pose proof (fill_loop (size e / 2) (Z.to_nat len) 0
                (replicate (Z.to_nat len) 0) s) as Hfill.
  rewrite Z2Nat.id in Hfill by lia.
  replace (to_int (counter (size e / 2) 0)) with 0 in Hfill
    by (unfold counter; by rewrite decide_True by lia).
  specialize (Hfill ltac:(lia) ltac:(lia)
                ltac:(rewrite length_replicate; lia)).
  simpl take in Hfill. simpl app in Hfill. fold (candidates e) in Hfill.
  destruct (shuffle_loop len (seqZ 0 len) (candidates e) s)
    as (numbers & Hperm & Hshuffle).
  { unfold candidates. fold len. rewrite length_fmap, length_seqZ. lia. }
  { apply Forall_seqZ. lia. }
  exists numbers. split; [done|].
  unfold AodvExample.InstallApplications.
  erewrite bind_Done by reflexivity. fold e.
  erewrite bind_Done; last first.
  { apply interfaces_GetAddress_Done. fold e. rewrite to_uint32_id; lia. }
  rewrite (to_uint32_id (size e - 1)) by lia.
  do 2 erewrite bind_Done by reflexivity.
  erewrite bind_Done by (apply nodes_Get_Done; fold e; lia).
  do 3 erewrite bind_Done by reflexivity.
  fold len.
  erewrite bind_Done
    by (apply stack_array_Done; unfold len; rewrite to_uint32_id; fold e; lia).
  erewrite bind_Done by exact Hfill.
  cbv beta iota. change (skip (size e / 2) <$> seqZ 0 len) with (candidates e).
  erewrite bind_Done by exact Hshuffle.
  rewrite length_seqZ. rewrite !prepend_prepend. done.
Qed.

(** *** The candidates *)

Lemma skip_inj half i j : skip half i = skip half j → i = j.
Proof. unfold skip. repeat case_decide; lia. Qed.

Lemma candidates_NoDup e : NoDup (candidates e).
Proof.
  unfold candidates. apply NoDup_fmap_2_strong; [|apply NoDup_seqZ].
  intros i j _ _. apply skip_inj.
Qed.

Lemma candidates_length e :
  2 ≤ size e < 2 ^ 32 → Z.of_nat (length (candidates e)) = size e - 2.
Proof.
  intros. unfold candidates. rewrite length_fmap, length_seqZ.
  rewrite to_uint32_id; lia.
Qed.

(** From three nodes on, the candidates are the indices up to [size-2]
    other than [size/2]. *)
Lemma candidates_elem e n :
  3 ≤ size e < 2 ^ 32 →
  n ∈ candidates e ↔ 0 ≤ n ≤ size e - 2 ∧ n ≠ size e / 2.
Proof.
  intros Hsize. unfold candidates. rewrite to_uint32_id by lia.
  rewrite list_elem_of_fmap. setoid_rewrite elem_of_seqZ.
  assert (1 ≤ size e / 2 ≤ size e - 2) as Hhalf
    by (Z.to_euclidean_division_equations; lia).
  unfold skip. split.
  - intros (i & -> & Hi). case_decide; lia.
  - intros [Hn Hne]. destruct (decide (n < size e / 2)).
    + exists n. rewrite decide_True by done. lia.
    + exists (n - 1). rewrite decide_False by lia. lia.
Qed.

(** With two nodes or more, every candidate is a node of the container. *)
Lemma candidates_nodes e :
  2 ≤ size e < 2 ^ 32 → Forall (λ n, 0 ≤ n < size e) (candidates e).
Proof.
  intros Hsize. unfold candidates. rewrite to_uint32_id by lia.
  apply Forall_fmap, Forall_seqZ. intros i Hi. simpl.
  unfold skip. case_decide; lia.
Qed.

(** *** Outcomes of [InstallApplications] *)

Lemma InstallApplications_Done s :
  2 ≤ size (this s) < 2 ^ 32 → 0 ≤ nodeRM (this s) ≤ size (this s) - 2 →
  ready (this s) →
  ∃ numbers, numbers ≡ₚ candidates (this s) ∧
    AodvExample.InstallApplications s =
    Done () (ping_events (this s) ++
             relocations (this s) (draws s + Z.to_nat (size (this s) - 2))
               (take (Z.to_nat (nodeRM (this s))) numbers))
      (mkState (this s)
         (3 * Z.to_nat (nodeRM (this s)) +
          (draws s + Z.to_nat (size (this s) - 2)))).
Proof.
  intros Hsize HRM Hready.
  destruct (InstallApplications_third_loop s) as (numbers & Hperm & E);
    [lia|done|].
  exists numbers. split; [done|]. rewrite E.
  rewrite to_uint32_id by lia.
  pose proof (candidates_length (this s) Hsize) as Hlen.
  rewrite <- Hperm in Hlen.
  rewrite <- (Z2Nat.id (nodeRM (this s))) at 1 by lia.
  rewrite relocate_loop; [done|lia|simpl; lia|].
  simpl. rewrite Hperm. destruct Hready as [-> _].
  by apply candidates_nodes.
Qed.

Lemma InstallApplications_numbers_Stop s :
  2 ≤ size (this s) < 2 ^ 32 → size (this s) - 2 < nodeRM (this s) →
  ready (this s) →
  ∃ t s', AodvExample.InstallApplications s =
          Stop (OutOfBounds "numbers" (size (this s) - 2)) t s'.
Proof.
  intros Hsize HRM Hready.
  destruct (InstallApplications_third_loop s) as (numbers & Hperm & E);
    [lia|done|].
  rewrite E. rewrite to_uint32_id by lia.
  pose proof (candidates_length (this s) Hsize) as Hlen.
  rewrite <- Hperm in Hlen.
  set (len := size (this s) - 2) in *.
  replace (nodeRM (this s)) with (len + (nodeRM (this s) - len)) by lia.
  rewrite seqZ_app by lia. rewrite for_each_app.
  replace (seqZ 0 len) with (seqZ 0 (Z.of_nat (Z.to_nat len)))
    by (by rewrite Z2Nat.id by lia).
  erewrite bind_Done; last first.
  { apply relocate_loop; [lia|simpl; lia|].
    simpl. rewrite Hperm. destruct Hready as [-> _].
    by apply candidates_nodes. }
  rewrite seqZ_cons by lia. simpl for_each.
  erewrite bind_Stop; last first.
  { unfold AodvExample.relocate. erewrite bind_Done by reflexivity.
    erewrite bind_Stop; [done|]. apply array_get_Stop. lia. }
  simpl. eauto.
Qed.

Lemma InstallApplications_interfaces_Stop s :
  size (this s) = 0 → ready (this s) →
  AodvExample.InstallApplications s =
  Stop (OutOfBounds "interfaces" 4294967295) [] s.
Proof.
  intros Hsize [_ Hifs]. unfold AodvExample.InstallApplications.
  erewrite bind_Done by reflexivity.
  erewrite bind_Stop; [done|]. rewrite Hsize.
  apply interfaces_GetAddress_Stop. rewrite Hifs, Hsize.
  change (to_uint32 (0 - 1)) with 4294967295. lia.
Qed.

(** With one node the length of [numbers] has wrapped: the ping is
    installed, then the declaration overruns the stack. *)
Lemma InstallApplications_stack_Stop s :
  size (this s) = 1 → ready (this s) →
  AodvExample.InstallApplications s =
  Stop (OutOfBounds "stack" 4294967295) (ping_events (this s)) s.
Proof.
  intros Hsize [Hnodes Hifs]. unfold AodvExample.InstallApplications.
  erewrite bind_Done by reflexivity.
  erewrite bind_Done; last first.
  { apply interfaces_GetAddress_Done. rewrite Hifs, Hsize. done. }
  do 2 erewrite bind_Done by reflexivity.
  erewrite bind_Done by (apply nodes_Get_Done; rewrite Hnodes, Hsize; done).
  do 3 erewrite bind_Done by reflexivity.
  erewrite bind_Stop; last first.
  { apply stack_array_Stop. rewrite Hsize. done. }
  unfold ping_events. rewrite Hsize. done.
Qed.

End Loops.

(** ** Reading a trace *)

Section Traces.
Context `{Platform}.

(** The nodes a ping application was installed on, the interfaces whose
    address a ping helper was given, and the scheduled relocations. *)
Definition ping_installed (t : list Event) : list Z :=
  omap (λ ev, match ev with V4PingHelper_Install n => Some n | _ => None end) t.

Definition ping_remote (t : list Event) : list Z :=
  omap (λ ev, match ev with V4PingHelper_new r => Some r | _ => None end) t.

Definition scheduled (t : list Event) : list (Time * Z * Vector) :=
  omap (λ ev, match ev with
              | Simulator_Schedule_SetPosition d n v => Some (d, n, v)
              | _ => None
              end) t.

Definition scheduled_nodes (t : list Event) : list Z :=
  (λ r, r.1.2) <$> scheduled t.

(** A position whose coordinates are three successive values of the
    random stream, in some order, each taken [% 10000]. *)
Definition drawn (v : Vector) : Prop :=
  ∃ (d a b c : nat), [a; b; c] ≡ₚ [d; S d; S (S d)] ∧
    v = mkVector (dbl_of_Z (Z.rem (rand_value a) 10000))
                 (dbl_of_Z (Z.rem (rand_value b) 10000))
                 (dbl_of_Z (Z.rem (rand_value c) 10000)).

Lemma rand_Vector_drawn d :
  drawn (rand_Vector (rand_value d) (rand_value (S d)) (rand_value (S (S d)))).
Proof.
  unfold rand_Vector.
  destruct xyz_order;
    [ exists d, d, (S d), (S (S d)) | exists d, d, (S (S d)), (S d)
    | exists d, (S d), d, (S (S d)) | exists d, (S (S d)), d, (S d)
    | exists d, (S d), (S (S d)), d | exists d, (S (S d)), (S d), d ];
    (split; [|done]).
  - done.
  - apply perm_skip, perm_swap.
  - apply perm_swap.
  - etrans; [apply perm_swap|]. apply perm_skip, perm_swap.
  - etrans; [|apply perm_swap]. apply perm_skip, perm_swap.
  - etrans; [apply perm_swap|].
    etrans; [apply perm_skip, perm_swap|]. apply perm_swap.
Qed.

(** [rand() % 10000] lies between 0 and 9999. *)
Lemma coordinate_range a : 0 ≤ Z.rem (rand_value a) 10000 < 10000.
Proof.
  pose proof (rand_value_range a). pose proof RAND_MAX_range.
  rewrite Z.rem_mod_nonneg by lia. apply Z.mod_pos_bound. lia.
Qed.

Lemma scheduled_relocations e ns : ∀ d,
  scheduled_nodes (relocations e d ns) = ns ∧
  Forall (λ r, r.1.1 = Seconds (dbl_div (duration e) (dbl_of_Z 2)) ∧ drawn r.2)
    (scheduled (relocations e d ns)).
Proof.
  unfold scheduled_nodes.
  induction ns as [|n ns IH]; intros d; simpl; [done|].
  destruct (IH (3 + d)%nat) as [IH1 IH2]. split.
  - f_equal. exact IH1.
  - constructor; [|done]. simpl. split; [done|]. apply rand_Vector_drawn.
Qed.

Lemma ping_relocations e d ns :
  ping_installed (relocations e d ns) = [] ∧
  ping_remote (relocations e d ns) = [].
Proof. revert d. induction ns as [|n ns IH]; intros d; simpl; [done|]. apply IH. Qed.

(** The trace of a run of [InstallApplications] that stays in bounds. *)
Lemma reading_InstallApplications e d ns :
  let t := ping_events e ++ relocations e d ns in
  ping_installed t = [size e / 2] ∧ ping_remote t = [size e - 1] ∧
  scheduled_nodes t = ns ∧
  Forall (λ r, r.1.1 = Seconds (dbl_div (duration e) (dbl_of_Z 2)) ∧ drawn r.2)
    (scheduled t).
Proof.
  destruct (ping_relocations e d ns) as [Hi Hr].
  destruct (scheduled_relocations e ns d) as [Hn Hall].
  simpl. unfold ping_installed, ping_remote in *. simpl.
  unfold scheduled_nodes in *. rewrite Hi, Hr. done.
Qed.

End Traces.

(** ** [InstallApplications]: the ping and the relocations *)

Section InstallApplications.
Context `{Platform}.

(** [DsdvExample::InstallApplications] is, statement by statement, the
    method of [AodvExample]. *)
Lemma DsdvExample_InstallApplications :
  DsdvExample.InstallApplications = AodvExample.InstallApplications.
Proof. reflexivity. Qed.

(** One ping application, on node [size/2] with the address of
    interface [size-1] as its remote, and [nodeRM] relocations. *)
Definition one_ping_nodeRM_relocations (InstallApplications : M unit)
    (s : State) : Prop :=
  ∃ t s', InstallApplications s = Done () t s' ∧
    ping_installed t = [size (this s) / 2] ∧
    ping_remote t = [size (this s) - 1] ∧
    length (scheduled t) = Z.to_nat (nodeRM (this s)).

(** [nodeRM] relocations of different nodes, each after a delay of
    [duration/2] and to a position drawn from [rand() % 10000]. *)
Definition relocations_at_midpoint (InstallApplications : M unit)
    (s : State) : Prop :=
  ∃ t s', InstallApplications s = Done () t s' ∧
    length (scheduled t) = Z.to_nat (nodeRM (this s)) ∧
    NoDup (scheduled_nodes t) ∧
    Forall (λ r, r.1.1 = Seconds (dbl_div (duration (this s)) (dbl_of_Z 2)) ∧
                 drawn r.2) (scheduled t).

(** The relocated nodes are the first [nodeRM] entries of an array that
    holds, once each, the indices up to [size-2] other than [size/2]. *)
Definition relocations_among_eligible (InstallApplications : M unit)
    (s : State) : Prop :=
  ∃ numbers t s', InstallApplications s = Done () t s' ∧
    (∀ n, n ∈ numbers ↔ 0 ≤ n ≤ size (this s) - 2 ∧ n ≠ size (this s) / 2) ∧
    NoDup numbers ∧
    scheduled_nodes t = take (Z.to_nat (nodeRM (this s))) numbers ∧
    ping_installed t = [size (this s) / 2] ∧
    ping_remote t = [size (this s) - 1] ∧
    Forall (λ n, n ≠ size (this s) / 2 ∧ n ≠ size (this s) - 1)
      (scheduled_nodes t).

(** Which runs stay in bounds, what they access, and where the others
    leave the bounds; the array is the one the declaration
    [uint32_t numbers[size-2]] makes. *)
Definition bounds (InstallApplications : M unit) (s : State) : Prop :=
  ((∃ t s', InstallApplications s = Done () t s') ↔
   2 ≤ size (this s) ∧ nodeRM (this s) ≤ size (this s) - 2) ∧
  (2 ≤ size (this s) →
     stack_array (to_uint32 (size (this s) - 2)) s =
     Done (replicate (Z.to_nat (size (this s) - 2)) 0) [] s) ∧
  (size (this s) < 2 →
     to_uint32 (size (this s) - 2) = 2 ^ 32 + size (this s) - 2) ∧
  (2 ≤ size (this s) → nodeRM (this s) ≤ size (this s) - 2 →
     ∃ numbers t s', InstallApplications s = Done () t s' ∧
       length numbers = Z.to_nat (size (this s) - 2) ∧
       ping_remote t = [size (this s) - 1] ∧
       scheduled_nodes t = take (Z.to_nat (nodeRM (this s))) numbers) ∧
  (size (this s) = 0 →
     ∃ t s', InstallApplications s =
             Stop (OutOfBounds "interfaces" (2 ^ 32 - 1)) t s') ∧
  (size (this s) = 1 →
     ∃ t s', InstallApplications s =
             Stop (OutOfBounds "stack" (2 ^ 32 - 1)) t s') ∧
  (2 ≤ size (this s) → size (this s) - 2 < nodeRM (this s) →
     ∃ t s', InstallApplications s =
             Stop (OutOfBounds "numbers" (size (this s) - 2)) t s').

Lemma InstallApplications_reading s :
  2 ≤ size (this s) < 2 ^ 32 → 0 ≤ nodeRM (this s) ≤ size (this s) - 2 →
  ready (this s) →
  ∃ numbers t s', numbers ≡ₚ candidates (this s) ∧
    AodvExample.InstallApplications s = Done () t s' ∧
    ping_installed t = [size (this s) / 2] ∧
    ping_remote t = [size (this s) - 1] ∧
    scheduled_nodes t = take (Z.to_nat (nodeRM (this s))) numbers ∧
    length (scheduled t) = Z.to_nat (nodeRM (this s)) ∧
    Forall (λ r, r.1.1 = Seconds (dbl_div (duration (this s)) (dbl_of_Z 2)) ∧
                 drawn r.2) (scheduled t).
Proof.
  intros Hsize HRM Hready.
  destruct (InstallApplications_Done s Hsize HRM Hready) as (numbers & Hperm & E).
  eexists numbers, _, _. split; [done|]. split; [exact E|].
  destruct (reading_InstallApplications (this s)
              (draws s + Z.to_nat (size (this s) - 2))
              (take (Z.to_nat (nodeRM (this s))) numbers))
    as (Hi & Hr & Hn & Hall).
  repeat split; try done.
  rewrite <- (length_fmap (λ r, r.1.2)). fold (scheduled_nodes
    (ping_events (this s) ++ relocations (this s)
       (draws s + Z.to_nat (size (this s) - 2))
       (take (Z.to_nat (nodeRM (this s))) numbers))).
  rewrite Hn, length_take.
  pose proof (candidates_length (this s) Hsize) as Hlen.
  rewrite <- Hperm in Hlen. lia.
Qed.

End InstallApplications.

(** A configured object with the containers as the first three steps of
    [Run] leave them, on the demonstration platform. *)
Definition demo_state (size nodeRM : Z) : @State demo :=
  @mkState demo
    (@mkExample demo size nodeRM (Demo.of_Z 50) false size size size) 0.

(** C8: for [size >= 3] and [nodeRM <= size - 2] the nodes that
    [InstallApplications] (of either class) relocates are taken from
    exactly the indices [0 .. size-2] without [size/2]; the ping source
    [size/2] and the ping destination [size-1] are never relocated. *)
Theorem relocated_nodes_eligible `{Platform} (s : State) :
  3 ≤ size (this s) < 2 ^ 32 →
  0 ≤ nodeRM (this s) ≤ size (this s) - 2 →
  ready (this s) →
  relocations_among_eligible AodvExample.InstallApplications s ∧
  relocations_among_eligible DsdvExample.InstallApplications s.
Proof.
  intros Hsize HRM Hready.
  cut (relocations_among_eligible AodvExample.InstallApplications s).
  { intros HA. split; [exact HA|].
    by rewrite <- DsdvExample_InstallApplications in HA. }
  destruct (InstallApplications_reading s)
    as (numbers & t & s' & Hperm & E & Hi & Hr & Hn & _); [lia|done..|].
  assert (∀ n, n ∈ numbers ↔
               0 ≤ n ≤ size (this s) - 2 ∧ n ≠ size (this s) / 2) as Helem.
  { intros n. rewrite Hperm. by apply candidates_elem. }
  exists numbers, t, s'. repeat split; try done; try apply Helem; try done.
  - rewrite Hperm. apply candidates_NoDup.
  - rewrite Hn. apply Forall_forall. intros n Hin.
    apply elem_of_take in Hin as (i & Hin & _).
    apply list_elem_of_lookup_2, Helem in Hin. lia.
Qed.

Lemma relocated_nodes_eligible_witness :
  3 ≤ 5 < 2 ^ 32 ∧ 0 ≤ 2 ≤ 5 - 2 ∧
  relocations_among_eligible AodvExample.InstallApplications (demo_state 5 2) ∧
  relocations_among_eligible DsdvExample.InstallApplications (demo_state 5 2).
Proof.
  split; [lia|]. split; [lia|].
  apply (relocated_nodes_eligible (demo_state 5 2)); simpl; [lia|lia|done].
Defined.

(** C2, as the code has it: a run of [InstallApplications] (of either
    class) that stays in bounds installs exactly one ping application,
    on node [size/2] and aimed at the address of node [size-1], and
    schedules exactly [nodeRM] relocation events. *)
Theorem one_ping_and_nodeRM_relocations `{Platform} (s : State) :
  2 ≤ size (this s) < 2 ^ 32 →
  0 ≤ nodeRM (this s) ≤ size (this s) - 2 →
  ready (this s) →
  one_ping_nodeRM_relocations AodvExample.InstallApplications s ∧
  one_ping_nodeRM_relocations DsdvExample.InstallApplications s.
Proof.
  intros Hsize HRM Hready.
  cut (one_ping_nodeRM_relocations AodvExample.InstallApplications s).
  { intros HA. split; [exact HA|].
    by rewrite <- DsdvExample_InstallApplications in HA. }
  destruct (InstallApplications_reading s Hsize HRM Hready)
    as (numbers & t & s' & _ & E & Hi & Hr & _ & Hlen & _).
  by exists t, s'.
Qed.

Lemma one_ping_and_nodeRM_relocations_witness :
  2 ≤ 5 < 2 ^ 32 ∧ 0 ≤ 1 ≤ 5 - 2 ∧
  one_ping_nodeRM_relocations AodvExample.InstallApplications (demo_state 5 1) ∧
  one_ping_nodeRM_relocations DsdvExample.InstallApplications (demo_state 5 1).
Proof.
  split; [lia|]. split; [lia|].
  apply (one_ping_and_nodeRM_relocations (demo_state 5 1)); simpl; [lia|lia|done].
Defined.

(** C2 as stated fails: with five nodes and [nodeRM = 2] the run
    schedules two relocation events, not one. *)
Lemma two_relocation_events :
  ∃ t s', AodvExample.InstallApplications (demo_state 5 2) = Done () t s' ∧
          length (scheduled t) = 2%nat ∧ length (scheduled t) ≠ 1%nat.
Proof. eexists _, _. split; [reflexivity|]. split; [reflexivity|done]. Qed.

(** C3, as the code has it: for every duration, and every [nodeRM] up to
    [size - 2], [InstallApplications] (of either class) schedules the
    relocation of exactly [nodeRM] nodes, all different, each after a
    delay of [duration/2], each to a position whose x, y and z are
    values of [rand() % 10000], between 0 and 9999. *)
Theorem relocations_scheduled_at_midpoint `{Platform} (s : State) :
  2 ≤ size (this s) < 2 ^ 32 →
  0 ≤ nodeRM (this s) ≤ size (this s) - 2 →
  ready (this s) →
  (relocations_at_midpoint AodvExample.InstallApplications s ∧
   relocations_at_midpoint DsdvExample.InstallApplications s) ∧
  ∀ a, 0 ≤ Z.rem (rand_value a) 10000 < 10000.
Proof.
  intros Hsize HRM Hready. split; [|apply coordinate_range].
  cut (relocations_at_midpoint AodvExample.InstallApplications s).
  { intros HA. split; [exact HA|].
    by rewrite <- DsdvExample_InstallApplications in HA. }
  destruct (InstallApplications_reading s Hsize HRM Hready)
    as (numbers & t & s' & Hperm & E & _ & _ & Hn & Hlen & Hall).
  exists t, s'. repeat split; try done.
  rewrite Hn. eapply sublist_NoDup; [|apply sublist_take].
  rewrite Hperm. apply candidates_NoDup.
Qed.

Lemma relocations_scheduled_at_midpoint_witness :
  2 ≤ 5 < 2 ^ 32 ∧ 0 ≤ 3 ≤ 5 - 2 ∧
  (relocations_at_midpoint AodvExample.InstallApplications (demo_state 5 3) ∧
   relocations_at_midpoint DsdvExample.InstallApplications (demo_state 5 3)) ∧
  ∀ a, 0 ≤ Z.rem (Demo.rand_value a) 10000 < 10000.
Proof.
  split; [lia|]. split; [lia|].
  apply (relocations_scheduled_at_midpoint (demo_state 5 3));
    simpl; [lia|lia|done].
Defined.

(** C3 as stated fails: with five nodes and [nodeRM = 4] the fourth
    iteration reads [numbers[3]] of an array of three entries; three
    relocations are scheduled before it. *)
Lemma fourth_relocation_out_of_bounds :
  ∃ t s', AodvExample.InstallApplications (demo_state 5 4) =
          Stop (OutOfBounds "numbers" 3) t s' ∧
          length (scheduled t) = 3%nat ∧ length (scheduled t) ≠ 4%nat.
Proof. eexists _, _. split; [reflexivity|]. split; [reflexivity|done]. Qed.

(** C9, as the code has it: all indexing in [InstallApplications] (of
    either class) is in bounds exactly when [size >= 2] and
    [nodeRM <= size - 2]: the local array has [size - 2] entries (a
    length that wraps around to 2^32 + size - 2 when [size < 2]), the
    interface index [size - 1] is accessed for the ping target, and
    [numbers[i]] is read for [i < nodeRM]; for [size < 2] or
    [nodeRM > size - 2] an access is out of bounds: the interface index
    2^32 - 1 with no node, the stack at the declaration of the array
    with one node, and [numbers[size-2]] otherwise. *)
Theorem InstallApplications_bounds `{Platform} (s : State) :
  0 ≤ size (this s) < 2 ^ 32 →
  0 ≤ nodeRM (this s) < 2 ^ 32 →
  ready (this s) →
  bounds AodvExample.InstallApplications s ∧
  bounds DsdvExample.InstallApplications s.
Proof.
  intros Hsize HRM Hready.
  cut (bounds AodvExample.InstallApplications s).
  { intros HA. split; [exact HA|].
    by rewrite <- DsdvExample_InstallApplications in HA. }
  assert (size (this s) = 0 →
          ∃ t s', AodvExample.InstallApplications s =
                  Stop (OutOfBounds "interfaces" (2 ^ 32 - 1)) t s') as H0.
  { intros E0. rewrite InstallApplications_interfaces_Stop by done. eauto. }
  assert (size (this s) = 1 →
          ∃ t s', AodvExample.InstallApplications s =
                  Stop (OutOfBounds "stack" (2 ^ 32 - 1)) t s') as H1.
  { intros E1. rewrite InstallApplications_stack_Stop by done. eauto. }
  assert (2 ≤ size (this s) → size (this s) - 2 < nodeRM (this s) →
          ∃ t s', AodvExample.InstallApplications s =
                  Stop (OutOfBounds "numbers" (size (this s) - 2)) t s') as H2.
  { intros ??. apply InstallApplications_numbers_Stop; [lia|done..]. }
  assert (2 ≤ size (this s) → nodeRM (this s) ≤ size (this s) - 2 →
          ∃ numbers t s', AodvExample.InstallApplications s = Done () t s' ∧
            length numbers = Z.to_nat (size (this s) - 2) ∧
            ping_remote t = [size (this s) - 1] ∧
            scheduled_nodes t = take (Z.to_nat (nodeRM (this s))) numbers) as Hin.
  { intros ??.
    destruct (InstallApplications_reading s)
      as (numbers & t & s' & Hperm & E & _ & Hr & Hn & _); [lia|lia|done|].
    exists numbers, t, s'. repeat split; try done.
    pose proof (candidates_length (this s) ltac:(lia)) as Hlen.
    rewrite <- Hperm in Hlen. lia. }
  unfold bounds.
  split; [split|split; [|split; [|split; [|split; [|split]]]]]; try done.
  - intros (t & s' & E).
    destruct (decide (size (this s) = 0)) as [E0|];
      [destruct (H0 E0) as (? & ? & E'); congruence|].
    destruct (decide (size (this s) = 1)) as [E1|];
      [destruct (H1 E1) as (? & ? & E'); congruence|].
    split; [lia|].
    destruct (decide (nodeRM (this s) ≤ size (this s) - 2)); [done|].
    destruct (H2 ltac:(lia) ltac:(lia)) as (? & ? & E'); congruence.
  - intros [??]. destruct Hin as (? & t & s' & E & _); eauto.
  - intros ?. rewrite to_uint32_id by lia. apply stack_array_Done. lia.
  - intros ?. unfold to_uint32.
    change (2 ^ 32) with 4294967296 in *.
    Z.to_euclidean_division_equations. lia.
Qed.

Lemma InstallApplications_bounds_witness :
  0 ≤ 5 < 2 ^ 32 ∧ 0 ≤ 4 < 2 ^ 32 ∧
  bounds AodvExample.InstallApplications (demo_state 5 4) ∧
  bounds DsdvExample.InstallApplications (demo_state 5 4).
Proof.
  split; [lia|]. split; [lia|].
  apply (InstallApplications_bounds (demo_state 5 4)); simpl; [lia|lia|done].
Defined.

(** C9 as stated fails: with [size = 2] and [nodeRM = 0] no access is
    out of bounds, although [size <= 2]. *)
Lemma two_nodes_in_bounds :
  size (this (demo_state 2 0)) ≤ 2 ∧
  AodvExample.InstallApplications (demo_state 2 0) =
  Done () (ping_events (this (demo_state 2 0))) (demo_state 2 0).
Proof. split; [done|reflexivity]. Qed.

(** With one node, on the demonstration platform: the ping is installed
    and the declaration of [numbers] is as far as the run gets. *)
Example one_node_stack :
  AodvExample.InstallApplications (demo_state 1 0) =
  Stop (OutOfBounds "stack" 4294967295)
    (ping_events (this (demo_state 1 0))) (demo_state 1 0).
Proof. reflexivity. Qed.

(** ** [Configure] *)

Section Configure.
Context `{Platform}.

Lemma DsdvExample_Configure : DsdvExample.Configure = AodvExample.Configure.
Proof. reflexivity. Qed.

(** The items and the calls of the four [cmd.AddValue] statements. *)
Definition flags : list Item :=
  [ mkItem "pcap" "Write PCAP traces." m_pcap;
    mkItem "size" "Number of nodes." m_size;
    mkItem "time" "Simulation time, s." m_duration;
    mkItem "fail" "Number of Nodes to move away." m_nodeRM ].

Definition registration : list Event :=
  (λ it, CommandLine_AddValue (item_name it) (item_help it) (item_target it))
    <$> flags.

(** The seed [Configure] chooses for a number of nodes. *)
Definition seed_for (size : Z) : Z := if decide (size = 45) then 8765 else 1234.

(** What a trace registers with the command line, and the seeds it sets. *)
Definition registered (t : list Event) : list (string * Member) :=
  omap (λ ev, match ev with
              | CommandLine_AddValue n _ m => Some (n, m)
              | _ => None
              end) t.

Definition seeds (t : list Event) : list Z :=
  omap (λ ev, match ev with SeedManager_SetSeed z => Some z | _ => None end) t.

(** Going through the arguments makes no call of its own, draws no
    random value, and is stopped only by ns-3 ending the process. *)
Lemma handle_arg_outcome cmd arg s :
  (∃ e, handle_arg cmd arg s = Done () [] (mkState e (draws s))) ∨
  (∃ code, handle_arg cmd arg s = Stop (ExitCalled code) [] s).
Proof.
  unfold handle_arg. destruct (strip_dashes arg) as [param|].
  - destruct (split_eq param) as [name value]. unfold handle_argument.
    destruct (find_item name cmd) as [it|].
    + erewrite bind_Done by reflexivity. simpl.
      destruct (store (item_target it) value (this s)); [left|right]; eauto.
    + destruct (cmd_other name value); [right|left]; eauto.
      exists (this s). by destruct s.
  - left. exists (this s). by destruct s.
Qed.

Lemma handle_args_outcome cmd args : ∀ s,
  (∃ e, handle_args cmd args s = Done () [] (mkState e (draws s))) ∨
  (∃ code s', handle_args cmd args s = Stop (ExitCalled code) [] s').
Proof.
  induction args as [|arg args IH]; intros s; simpl.
  - left. exists (this s). by destruct s.
  - destruct (handle_arg_outcome cmd arg s) as [[e E]|[code E]].
    + erewrite bind_Done by exact E. rewrite prepend_nil.
      destruct (IH (mkState e (draws s))) as [[e' E']|(code & s' & E')];
        rewrite E'; eauto.
    + erewrite bind_Stop by exact E. eauto.
Qed.

Lemma handle_args_app cmd args1 args2 s :
  handle_args cmd (args1 ++ args2) s =
  (handle_args cmd args1;; handle_args cmd args2) s.
Proof.
  revert s. induction args1 as [|arg args1 IH]; intros s; simpl.
  - erewrite bind_Done by reflexivity. by rewrite prepend_nil.
  - destruct (handle_arg_outcome cmd arg s) as [[e E]|[code E]].
    + erewrite !bind_Done by exact E. rewrite !prepend_nil.
      rewrite IH.
      destruct (handle_args_outcome cmd args1 (mkState e (draws s)))
        as [[e' E']|(code & s' & E')].
      * erewrite !bind_Done by exact E'.
        erewrite bind_Done; [done|].
        erewrite bind_Done by exact E. by rewrite prepend_nil.
      * erewrite !bind_Stop; [done| |exact E'].
        erewrite bind_Done by exact E. by rewrite prepend_nil.
    + erewrite !bind_Stop; [done| |exact E]. by erewrite bind_Stop by exact E.
Qed.

(** [Configure], spelled out over the outcome of going through the
    arguments. *)
Lemma Configure_unfold argv s :
  AodvExample.Configure argv s =
  match handle_args flags (tail argv) s with
  | Done _ _ s' =>
      Done true (registration ++ [CommandLine_Parse argv] ++
                 [SeedManager_SetSeed (seed_for (size (this s')))]) s'
  | Stop r _ s' => Stop r (registration ++ [CommandLine_Parse argv]) s'
  end.
Proof.
  unfold AodvExample.Configure, AddValue.
  do 4 erewrite bind_Done by reflexivity.
  change ((([] ++ _) ++ _) ++ _ ++ _) with flags.
  destruct (handle_args_outcome flags (tail argv) s)
    as [[e E]|(code & s' & E)]; rewrite E.
  - assert (Parse flags argv s =
            Done () [CommandLine_Parse argv] (mkState e (draws s))) as EP.
    { unfold Parse. erewrite bind_Done by reflexivity. by rewrite E. }
    erewrite bind_Done by exact EP.
    erewrite bind_Done by reflexivity. simpl this. unfold seed_for.
    case_decide; by erewrite bind_Done by reflexivity.
  - assert (Parse flags argv s =
            Stop (ExitCalled code) [CommandLine_Parse argv] s') as EP.
    { unfold Parse. erewrite bind_Done by reflexivity. by rewrite E. }
    erewrite bind_Stop by exact EP. done.
Qed.

End Configure.

Section Flags.
Context `{Platform}.

(** An accepted argument list stays accepted with one more argument
    that the parser can handle; the object is the one that argument
    leaves behind. *)
Lemma Configure_supplied argv s t s1 arg e' :
  argv ≠ [] →
  AodvExample.Configure argv s = Done true t s1 →
  handle_arg flags arg s1 = Done () [] (mkState e' (draws s1)) →
  ∃ t', AodvExample.Configure (argv ++ [arg]) s =
        Done true t' (mkState e' (draws s1)).
Proof.
  intros Hne E Harg. rewrite Configure_unfold in E |- *.
  destruct argv as [|argv0 args]; [done|]. simpl tail in *.
  rewrite handle_args_app.
  destruct (handle_args_outcome flags args s) as [[e E1]|(code & s' & E1)];
    rewrite E1 in E; [|done].
  injection E as _ <-.
  erewrite bind_Done by exact E1. simpl handle_args.
  erewrite bind_Done by exact Harg. simpl. eauto.
Qed.

Lemma handle_pcap text s :
  handle_arg flags ("--pcap=" +:+ text) s =
  match read_bool (pcap (this s)) text with
  | Some b => Done () [] (mkState (set_pcap b (this s)) (draws s))
  | None => Stop (ExitCalled 1) [] s
  end.
Proof.
  unfold handle_arg. simpl. unfold handle_argument. simpl.
  erewrite bind_Done by reflexivity. simpl.
  change ("" +:+ text) with text.
  by destruct (read_bool (pcap (this s)) text).
Qed.

Lemma handle_size text s :
  handle_arg flags ("--size=" +:+ text) s =
  match read_uint32 text with
  | Some n => Done () [] (mkState (set_size n (this s)) (draws s))
  | None => Stop (ExitCalled 1) [] s
  end.
Proof.
  unfold handle_arg. simpl. unfold handle_argument. simpl.
  erewrite bind_Done by reflexivity. simpl.
  change ("" +:+ text) with text.
  by destruct (read_uint32 text).
Qed.

Lemma handle_time text s :
  handle_arg flags ("--time=" +:+ text) s =
  match read_double text with
  | Some d => Done () [] (mkState (set_duration d (this s)) (draws s))
  | None => Stop (ExitCalled 1) [] s
  end.
Proof.
  unfold handle_arg. simpl. unfold handle_argument. simpl.
  erewrite bind_Done by reflexivity. simpl.
  change ("" +:+ text) with text.
  by destruct (read_double text).
Qed.

Lemma handle_fail text s :
  handle_arg flags ("--fail=" +:+ text) s =
  match read_uint32 text with
  | Some n => Done () [] (mkState (set_nodeRM n (this s)) (draws s))
  | None => Stop (ExitCalled 1) [] s
  end.
Proof.
  unfold handle_arg. simpl. unfold handle_argument. simpl.
  erewrite bind_Done by reflexivity. simpl.
  change ("" +:+ text) with text.
  by destruct (read_uint32 text).
Qed.

(** The options [Configure] registers, and what each does when it is
    supplied, with a text its variable can be read from, after the
    arguments [argv] that [Configure] accepts. *)
Definition four_flags (Configure : list string → M bool)
    (argv : list string) (s : State) (text : string) : Prop :=
  (∀ args s0, registered (trace (Configure args s0)) =
     [("pcap", m_pcap); ("size", m_size); ("time", m_duration); ("fail", m_nodeRM)]) ∧
  ∀ t s1, Configure argv s = Done true t s1 →
    (∀ b, read_bool (pcap (this s1)) text = Some b →
       ∃ t', Configure (argv ++ ["--pcap=" +:+ text]) s =
             Done true t' (mkState (set_pcap b (this s1)) (draws s1))) ∧
    (∀ n, read_uint32 text = Some n →
       ∃ t', Configure (argv ++ ["--size=" +:+ text]) s =
             Done true t' (mkState (set_size n (this s1)) (draws s1))) ∧
    (∀ d, read_double text = Some d →
       ∃ t', Configure (argv ++ ["--time=" +:+ text]) s =
             Done true t' (mkState (set_duration d (this s1)) (draws s1))) ∧
    (∀ n, read_uint32 text = Some n →
       ∃ t', Configure (argv ++ ["--fail=" +:+ text]) s =
             Done true t' (mkState (set_nodeRM n (this s1)) (draws s1))).

End Flags.

(** C1, as the code has it: [Configure] of either class registers
    exactly four options, [pcap], [size], [time] and [fail], bound to the
    members [pcap], [size], [duration] and [nodeRM]; each, when
    supplied, sets its member. *)
Theorem Configure_registers_four_flags `{Platform}
    (argv : list string) (s : State) (text : string) :
  argv ≠ [] →
  four_flags AodvExample.Configure argv s text ∧
  four_flags DsdvExample.Configure argv s text.
Proof.
  intros Hne.
  cut (four_flags AodvExample.Configure argv s text).
  { intros HA. split; [exact HA|].
    by rewrite <- DsdvExample_Configure in HA. }
  split.
  - intros args s0. rewrite Configure_unfold.
    by destruct (handle_args flags (tail args) s0).
  - intros t s1 E. repeat split.
    + intros b Hb. eapply Configure_supplied; [done..|].
      by rewrite handle_pcap, Hb.
    + intros n Hn. eapply Configure_supplied; [done..|].
      by rewrite handle_size, Hn.
    + intros d Hd. eapply Configure_supplied; [done..|].
      by rewrite handle_time, Hd.
    + intros n Hn. eapply Configure_supplied; [done..|].
      by rewrite handle_fail, Hn.
Qed.

(** The state [main] hands to [Configure] on the demonstration
    platform: a freshly constructed object, no random value drawn. *)
Definition demo_fresh : @State demo := @mkState demo AodvExample.AodvExample 0.

Lemma Configure_registers_four_flags_witness :
  ["protocols"; "--fail=2"] ≠ [] ∧
  four_flags AodvExample.Configure ["protocols"; "--fail=2"] demo_fresh "45" ∧
  four_flags DsdvExample.Configure ["protocols"; "--fail=2"] demo_fresh "45".
Proof.
  split; [done|].
  apply (Configure_registers_four_flags ["protocols"; "--fail=2"] demo_fresh "45").
  done.
Defined.

(** C1 as stated fails: four options are registered, not five. *)
Lemma four_flags_not_five :
  length (registered (trace (AodvExample.Configure ["protocols"] demo_fresh)))
    = 4%nat ∧
  length (registered (trace (DsdvExample.Configure ["protocols"] demo_fresh)))
    = 4%nat ∧
  4%nat ≠ 5%nat.
Proof. split; [reflexivity|]. split; [reflexivity|done]. Qed.

(** On the demonstration platform, [--size=45 --pcap] after [--fail=2]. *)
Example Configure_demo :
  AodvExample.Configure ["protocols"; "--fail=2"; "--size=45"; "--pcap"] demo_fresh =
  Done true (registration ++
             [CommandLine_Parse ["protocols"; "--fail=2"; "--size=45"; "--pcap"];
              SeedManager_SetSeed 8765])
    (@mkState demo (@mkExample demo 45 2 (Demo.of_Z 50) true 0 0 0) 0).
Proof. reflexivity. Qed.

(** ** The seed *)

Section Seed.
Context `{Platform}.

(** The outcome [o], had the run begun after [d] random values. *)
Definition at_draws {A} (d : nat) (o : Outcome A) : Outcome A :=
  match o with
  | Done a t s => Done a t (mkState (this s) d)
  | Stop r t s => Stop r t (mkState (this s) d)
  end.

(** Going through the arguments does not look at the random stream. *)
Lemma handle_arg_at_draws cmd arg s d :
  handle_arg cmd arg (mkState (this s) d) = at_draws d (handle_arg cmd arg s).
Proof.
  unfold handle_arg. destruct (strip_dashes arg) as [param|]; [|done].
  destruct (split_eq param) as [name value]. unfold handle_argument.
  destruct (find_item name cmd) as [it|].
  - erewrite !bind_Done by reflexivity. simpl.
    by destruct (store (item_target it) value (this s)).
  - by destruct (cmd_other name value).
Qed.

Lemma handle_args_at_draws cmd args : ∀ s d,
  handle_args cmd args (mkState (this s) d) = at_draws d (handle_args cmd args s).
Proof.
  induction args as [|arg args IH]; intros s d; simpl; [done|].
  pose proof (handle_arg_at_draws cmd arg s d) as Harg.
  destruct (handle_arg_outcome cmd arg s) as [[e E]|[code E]];
    rewrite E in Harg; simpl in Harg.
  - erewrite !bind_Done; [|exact E|exact Harg]. rewrite !prepend_nil.
    apply (IH (mkState e (draws s)) d).
  - by erewrite !bind_Stop; [|exact E|exact Harg].
Qed.

(** [Configure] sets one seed, chosen from the parsed [size] alone, or
    none when ns-3 ends the process while parsing. *)
Definition seed_from_size (Configure : list string → M bool)
    (argv : list string) (s : State) : Prop :=
  match Configure argv s with
  | Done _ t s' => seeds t = [if decide (size (this s') = 45) then 8765 else 1234]
  | Stop _ t _ => seeds t = []
  end.

(** The seeds do not depend on the state of the random stream. *)
Definition same_seeds (Configure : list string → M bool)
    (argv : list string) (e : Example) : Prop :=
  ∀ d1 d2, seeds (trace (Configure argv (mkState e d1))) =
           seeds (trace (Configure argv (mkState e d2))).

End Seed.

(** C10: [Configure] of either class sets the seed 8765 when the parsed
    [size] is 45 and 1234 otherwise; two runs with the same arguments
    on the same object set the same seeds, whatever the state of the
    random stream, and both classes set the same. *)
Theorem Configure_seed `{Platform} (argv : list string) (s : State) :
  (seed_from_size AodvExample.Configure argv s ∧
   seed_from_size DsdvExample.Configure argv s) ∧
  (same_seeds AodvExample.Configure argv (this s) ∧
   same_seeds DsdvExample.Configure argv (this s)) ∧
  seeds (trace (DsdvExample.Configure argv s)) =
  seeds (trace (AodvExample.Configure argv s)).
Proof.
  assert (seed_from_size AodvExample.Configure argv s) as Hseed.
  { unfold seed_from_size. rewrite Configure_unfold.
    by destruct (handle_args flags (tail argv) s). }
  assert (same_seeds AodvExample.Configure argv (this s)) as Hsame.
  { intros d1 d2. rewrite !Configure_unfold.
    change (mkState (this s) d2)
      with (mkState (this (mkState (this s) d1)) d2).
    rewrite (handle_args_at_draws flags (tail argv) (mkState (this s) d1) d2).
    by destruct (handle_args flags (tail argv) (mkState (this s) d1)). }
  split; [split; [exact Hseed|]|split; [split; [exact Hsame|]|done]].
  - by rewrite <- DsdvExample_Configure in Hseed.
  - by rewrite <- DsdvExample_Configure in Hsame.
Qed.

(** On the demonstration platform: 45 nodes, and the default of 5. *)
Example seed_45 :
  seeds (trace (AodvExample.Configure ["protocols"; "--size=45"] demo_fresh)) = [8765].
Proof. reflexivity. Qed.

Example seed_default :
  seeds (trace (DsdvExample.Configure ["protocols"] demo_fresh)) = [1234].
Proof. reflexivity. Qed.

(** ** How a run can be stopped *)

Section Stops.
Context `{Platform}.

(** Every stop of [m] has a reason in [Q]. *)
Definition stops_only {A} (Q : Reason → Prop) (m : M A) : Prop :=
  ∀ s, match m s with Stop r _ _ => Q r | Done _ _ _ => True end.

(** The stops that stand for undefined behaviour of the C++ program. *)
Definition undefined (r : Reason) : Prop :=
  match r with OutOfBounds _ _ | DivisionByZero => True | _ => False end.

Lemma stops_only_ret {A} Q (a : A) : stops_only Q (mret a).
Proof. by intros s. Qed.
Lemma stops_only_emit Q ev : stops_only Q (emit ev).
Proof. by intros s. Qed.
Lemma stops_only_get_this Q : stops_only Q get_this.
Proof. by intros s. Qed.
Lemma stops_only_put_this Q e : stops_only Q (put_this e).
Proof. by intros s. Qed.
Lemma stops_only_rand Q : stops_only Q rand.
Proof. by intros s. Qed.
Lemma stops_only_stop {A} (Q : Reason → Prop) r : Q r → stops_only Q (stop (A:=A) r).
Proof. by intros ? s. Qed.

(** [P] holds of every value [m] returns. *)
Definition returns {A} (P : A → Prop) (m : M A) : Prop :=
  ∀ s, match m s with Done a _ _ => P a | Stop _ _ _ => True end.

Lemma stops_only_bind_returns {A B} Q (P : A → Prop) (m : M A) (f : A → M B) :
  stops_only Q m → returns P m → (∀ a, P a → stops_only Q (f a)) →
  stops_only Q (m ≫= f).
Proof.
  intros Hm HP Hf s. specialize (Hm s). specialize (HP s).
  unfold mbind, M_bind. destruct (m s) as [a t s'|r t s']; [|done].
  specialize (Hf a HP s'). by destruct (f a s').
Qed.

Lemma stops_only_bind {A B} Q (m : M A) (f : A → M B) :
  stops_only Q m → (∀ a, stops_only Q (f a)) → stops_only Q (m ≫= f).
Proof.
  intros Hm Hf. apply (stops_only_bind_returns Q (λ _, True)); [done| |auto].
  intros s. by destruct (m s).
Qed.

Lemma stops_only_for_each {V} Q (body : Z → V → M V) l :
  (∀ i v, stops_only Q (body i v)) → ∀ v, stops_only Q (for_each l body v).
Proof.
  intros Hbody. induction l as [|i l IH]; intros v; simpl.
  - apply stops_only_ret.
  - by apply stops_only_bind.
Qed.

Lemma stops_only_weaken {A} (Q Q' : Reason → Prop) (m : M A) :
  (∀ r, Q r → Q' r) → stops_only Q m → stops_only Q' m.
Proof. intros HQ Hm s. specialize (Hm s). destruct (m s); auto. Qed.

End Stops.

(** Takes a computation apart, down to the calls it is made of. *)
Ltac stops_only_step :=
  match goal with
  | |- stops_only _ (mret _) => apply stops_only_ret
  | |- stops_only _ (emit _) => apply stops_only_emit
  | |- stops_only _ get_this => apply stops_only_get_this
  | |- stops_only _ (put_this _) => apply stops_only_put_this
  | |- stops_only _ rand => apply stops_only_rand
  | |- stops_only _ (stop _) => apply stops_only_stop; done
  | |- stops_only _ (_ ≫= _) => apply stops_only_bind; [|intros ?]
  | |- stops_only _ (for_each _ _ _) => apply stops_only_for_each; intros ??
  | |- stops_only _ (if ?b then _ else _) => destruct b
  | |- stops_only _ (match ?o with Some _ => _ | None => _ end) => destruct o
  | |- stops_only _ (let '(_, _) := ?p in _) => destruct p
  end.

Section Undefined.
Context `{Platform}.

Lemma Run_stops_only_undefined :
  stops_only undefined AodvExample.Run ∧ stops_only undefined DsdvExample.Run.
Proof.
  split.
  - unfold AodvExample.Run, AodvExample.CreateNodes, AodvExample.CreateDevices,
      AodvExample.InstallInternetStack, AodvExample.InstallApplications,
      AodvExample.fill, AodvExample.shuffle, AodvExample.relocate,
      nodes_Create, nodes_Get, wifi_Install, address_Assign,
      interfaces_GetAddress, array_get, array_set, stack_array.
    repeat stops_only_step.
  - unfold DsdvExample.Run, DsdvExample.CreateNodes, DsdvExample.CreateDevices,
      DsdvExample.InstallInternetStack, DsdvExample.InstallApplications,
      DsdvExample.fill, DsdvExample.shuffle, DsdvExample.relocate,
      nodes_Create, nodes_Get, wifi_Install, address_Assign,
      interfaces_GetAddress, array_get, array_set, stack_array.
    repeat stops_only_step.
Qed.

End Undefined.

(** ** The fatal-error check of [main] *)

Section Fatal.
Context `{Platform}.

(** [Configure] returns when [cmd.Parse] does, and then it returns
    [true]; [cmd.Parse] is stopped only by ns-3 ending the process, and
    that stops [Configure] too. *)
Definition returns_true (Configure : list string → M bool)
    (argv : list string) (s : State) : Prop :=
  match Parse flags argv s with
  | Done _ _ s' => ∃ t, Configure argv s = Done true t s'
  | Stop r _ s' => (∃ code, r = ExitCalled code) ∧
                   ∃ t, Configure argv s = Stop r t s'
  end.

(** The branch [NS_FATAL_ERROR ("Configuration failed. Aborted.")] is
    not taken. *)
Definition never_fatal {A} (o : Outcome A) : Prop :=
  match o with
  | Stop (FatalError _) _ _ => False
  | _ => True
  end.

Lemma Configure_returns_true argv s :
  returns_true AodvExample.Configure argv s.
Proof.
  unfold returns_true, Parse. rewrite Configure_unfold.
  erewrite bind_Done by reflexivity.
  destruct (handle_args_outcome flags (tail argv) s)
    as [[e E]|(code & s' & E)]; rewrite E; simpl; eauto.
Qed.

Lemma Configure_stops_only argv :
  stops_only (λ r, ∃ code, r = ExitCalled code) (AodvExample.Configure argv) ∧
  returns (λ ok, ok = true) (AodvExample.Configure argv).
Proof.
  split; intros s; rewrite Configure_unfold;
    destruct (handle_args_outcome flags (tail argv) s)
      as [[e E]|(code & s' & E)]; rewrite E; eauto.
Qed.

Lemma main_never_fatal select argv :
  stops_only (λ r, ∀ msg, r ≠ FatalError msg) (main select argv).
Proof.
  destruct (Configure_stops_only argv) as [Hstop Hret].
  destruct Run_stops_only_undefined as [HA HD].
  assert (∀ r, undefined r → ∀ msg, r ≠ FatalError msg) as Hundef
    by (by intros [] ?).
  assert (∀ r, (∃ code, r = ExitCalled code) → ∀ msg, r ≠ FatalError msg)
    as Hexit by (by intros ? [? ->]).
  unfold main.
  apply stops_only_bind; [apply stops_only_emit|intros _].
  destruct (Ascii.eqb select "a"); [|destruct (Ascii.eqb select "d")].
  - apply stops_only_bind; [apply stops_only_emit|intros _].
    apply stops_only_bind; [apply stops_only_put_this|intros _].
    eapply stops_only_bind_returns;
      [eapply stops_only_weaken; [exact Hexit|exact Hstop]
      |exact Hret|intros ok ->]. simpl.
    apply stops_only_bind; [apply stops_only_ret|intros _].
    apply stops_only_bind;
      [eapply stops_only_weaken; [exact Hundef|exact HA]|intros _].
    apply stops_only_ret.
  - apply stops_only_bind; [apply stops_only_emit|intros _].
    apply stops_only_bind; [apply stops_only_put_this|intros _].
    eapply stops_only_bind_returns;
      [eapply stops_only_weaken; [exact Hexit|exact Hstop]
      |exact Hret|intros ok ->]. simpl.
    apply stops_only_bind; [apply stops_only_ret|intros _].
    apply stops_only_bind;
      [eapply stops_only_weaken; [exact Hundef|exact HD]|intros _].
    apply stops_only_ret.
  - apply stops_only_bind; [apply stops_only_emit|intros _].
    apply stops_only_ret.
Qed.

End Fatal.

(** C4, as the code has it: for every input on which [cmd.Parse]
    returns, [Configure] of either class returns [true]; it never
    returns [false], and it does not return only when ns-3 ends the
    process inside [cmd.Parse]; so [main] never takes its fatal-error
    branch.  [Run] has no failure handling: nothing stops it but an
    access the language leaves undefined.  A selection other than 'a'
    or 'd' makes [main] print a message and return 0. *)
Theorem Configure_never_false_main_never_fatal `{Platform}
    (select : ascii) (argv : list string) (s : State) :
  (returns_true AodvExample.Configure argv s ∧
   returns_true DsdvExample.Configure argv s) ∧
  never_fatal (main select argv s) ∧
  (stops_only undefined AodvExample.Run ∧
   stops_only undefined DsdvExample.Run) ∧
  (if (Ascii.eqb select "a" || Ascii.eqb select "d")%bool then True
   else main select argv s =
        Done 0 [ std_cout "Enter 'a' for AODV, or 'd' for DSDV";
                 std_cout "ERROR: Incorrect selection, please run again." ] s).
Proof.
  split; [split; apply Configure_returns_true|].
  split; [|split; [apply Run_stops_only_undefined|]].
  - pose proof (main_never_fatal select argv s) as Hmain.
    unfold never_fatal. destruct (main select argv s) as [|[] ??]; try done.
    by eapply Hmain.
  - unfold main.
    destruct (Ascii.eqb select "a"); [done|].
    destruct (Ascii.eqb select "d"); [done|]. done.
Qed.

(** C4 as stated fails: on the demonstration platform a value that
    cannot be read ends the process inside [cmd.Parse], and [Configure]
    does not return. *)
Lemma Configure_unreadable_value :
  AodvExample.Configure ["protocols"; "--size=many"] demo_fresh =
    Stop (ExitCalled 1)
      (registration ++ [CommandLine_Parse ["protocols"; "--size=many"]])
      demo_fresh ∧
  ∀ t s', AodvExample.Configure ["protocols"; "--size=many"] demo_fresh ≠
          Done true t s'.
Proof. split; [reflexivity|]. intros t s'. discriminate. Qed.

(** On the demonstration platform: the default run of AODV ends with
    exit status 0; an unreadable value ends the run of [main] inside
    the parser, not in the fatal-error branch. *)
Example main_demo_default :
  ∃ t s', main "a" ["protocols"] demo_fresh = Done 0 t s'.
Proof. eexists _, _. reflexivity. Qed.

Example main_demo_unreadable :
  ∃ t s', main "d" ["protocols"; "--size=many"] demo_fresh =
          Stop (ExitCalled 1) t s'.
Proof. eexists _, _. reflexivity. Qed.

(** ** [CreateNodes] and the steps of [Run] *)

Section Steps.
Context `{Platform}.

Lemma DsdvExample_CreateNodes : DsdvExample.CreateNodes = AodvExample.CreateNodes.
Proof. reflexivity. Qed.

(** The calls that name the nodes [k], ..., [k + n - 1]. *)
Definition node_names (k n : Z) : list Event :=
  (λ i, Names_Add ("node(" +:+ pretty i +:+ ")") i) <$> seqZ k n.

(** The calls of [CreateNodes] for [size] nodes. *)
Definition nodes_events (size : Z) : list Event :=
  [ std_cout ("Creating " +:+ pretty size +:+ " nodes ");
    std_cout "Nodes will be 175m apart.";
    NodeContainer_Create size ] ++
  node_names 0 size ++
  [ MobilityHelper_SetPositionAllocator "ns3::RandomDiscPositionAllocator"
      [("X", StringValue "175.0");
       ("Y", StringValue "175.0");
       ("Rho", StringValue "ns3::UniformRandomVariable[Min=0|Max=125]")];
    MobilityHelper_SetMobilityModel "ns3::ConstantPositionMobilityModel";
    MobilityHelper_Install size ].

Lemma name_loop (n : nat) : ∀ k s,
  0 ≤ k → k + Z.of_nat n ≤ nodes (this s) →
  for_each (seqZ k (Z.of_nat n))
    (λ i _, node ← nodes_Get i;
            emit (Names_Add ("node(" +:+ pretty i +:+ ")") node)) () s =
  Done () (node_names k (Z.of_nat n)) s.
Proof.
  unfold node_names.
  induction n as [|n IH]; intros k s Hk Hn.
  - by rewrite seqZ_nil by lia.
  - rewrite seqZ_cons by lia. simpl for_each.
    erewrite bind_Done; last first.
    { erewrite bind_Done by (apply nodes_Get_Done; lia). done. }
    replace (Z.pred (Z.of_nat (S n))) with (Z.of_nat n) by lia.
    rewrite IH by lia. done.
Qed.

Lemma CreateNodes_Done s :
  0 ≤ size (this s) → nodes (this s) = 0 →
  AodvExample.CreateNodes s =
  Done () (nodes_events (size (this s)))
    (mkState (set_nodes (size (this s)) (this s)) (draws s)).
Proof.
  intros Hsize Hnodes. unfold AodvExample.CreateNodes, nodes_Create.
  do 3 erewrite bind_Done by reflexivity.
  erewrite bind_Done; last first.
  { erewrite bind_Done by reflexivity. by erewrite bind_Done by reflexivity. }
  rewrite Hnodes, Z.add_0_l.
  rewrite <- (Z2Nat.id (size (this s))) at 3 by lia.
  erewrite bind_Done by (apply name_loop; simpl; lia).
  rewrite Z2Nat.id by lia.
  do 3 erewrite bind_Done by reflexivity. done.
Qed.

(** The calls of [CreateDevices] and of [InstallInternetStack], for the
    file name prefix and the routing helper of a class. *)
Definition devices_events (prefix : string) (e : Example) : list Event :=
  [ WifiMacHelper_SetType "ns3::AdhocWifiMac";
    YansWifiPhyHelper_Default;
    YansWifiChannelHelper_Default;
    YansWifiChannelHelper_Create;
    YansWifiPhyHelper_SetChannel;
    WifiHelper_SetRemoteStationManager "ns3::ConstantRateWifiManager"
      [("DataMode", StringValue "OfdmRate6Mbps");
       ("RtsCtsThreshold", UintegerValue 0)];
    WifiHelper_Install (nodes e) ] ++
  (if pcap e then [YansWifiPhyHelper_EnablePcapAll prefix] else []).

Definition stack_events (h : RoutingHelper) (prefix : string) (e : Example)
    : list Event :=
  [ InternetStackHelper_SetRoutingHelper h;
    InternetStackHelper_Install (nodes e);
    Ipv4AddressHelper_SetBase "10.0.0.0" "255.0.0.0";
    Ipv4AddressHelper_Assign (devices e);
    OutputStreamWrapper_Create (prefix +:+ ".routes");
    PrintRoutingTableAllAt h (Seconds (dbl_of_Z 8)) (prefix +:+ ".routes") ].

Lemma CreateDevices_Done s :
  AodvExample.CreateDevices s =
    Done () (devices_events "aodv" (this s))
      (mkState (set_devices (nodes (this s)) (this s)) (draws s)) ∧
  DsdvExample.CreateDevices s =
    Done () (devices_events "dsdv" (this s))
      (mkState (set_devices (nodes (this s)) (this s)) (draws s)).
Proof.
  unfold AodvExample.CreateDevices, DsdvExample.CreateDevices,
    wifi_Install, devices_events.
  split; (do 6 erewrite bind_Done by reflexivity);
    (erewrite bind_Done;
       [|erewrite bind_Done by reflexivity;
         by erewrite bind_Done by reflexivity]);
    erewrite bind_Done by reflexivity; simpl; by destruct (pcap (this s)).
Qed.

Lemma InstallInternetStack_Done s :
  AodvExample.InstallInternetStack s =
    Done () (stack_events AodvHelper "aodv" (this s))
      (mkState (set_interfaces (devices (this s)) (this s)) (draws s)) ∧
  DsdvExample.InstallInternetStack s =
    Done () (stack_events DsdvHelper "dsdv" (this s))
      (mkState (set_interfaces (devices (this s)) (this s)) (draws s)).
Proof.
  unfold AodvExample.InstallInternetStack, DsdvExample.InstallInternetStack,
    address_Assign, stack_events.
  split; (do 4 erewrite bind_Done by reflexivity);
    (erewrite bind_Done;
       [|erewrite bind_Done by reflexivity;
         by erewrite bind_Done by reflexivity]);
    by erewrite bind_Done by reflexivity.
Qed.

(** [CreateNodes] creates [size] nodes, names them, and installs the
    position allocator and the mobility model on all of them. *)
Definition creates_nodes (CreateNodes : M unit) (s : State) : Prop :=
  CreateNodes s =
  Done () (nodes_events (size (this s)))
    (mkState (set_nodes (size (this s)) (this s)) (draws s)).

(** [Run] is its four steps, each run to its end on the state the one
    before left, and then the three calls of the simulator. *)
Definition fixed_sequence
    (CreateNodes CreateDevices InstallInternetStack InstallApplications Run : M unit)
    (s : State) : Prop :=
  ∃ t1 t2 t3 t4 s1 s2 s3 s4,
    CreateNodes s = Done () t1 s1 ∧
    CreateDevices s1 = Done () t2 s2 ∧
    InstallInternetStack s2 = Done () t3 s3 ∧
    InstallApplications s3 = Done () t4 s4 ∧
    Run s = Done () (t1 ++ t2 ++ t3 ++ t4 ++
                     [ std_cout "Starting simulation";
                       Simulator_Stop (Seconds (duration (this s)));
                       Simulator_Run;
                       Simulator_Destroy ]) s4.

(** The object as the constructor and [Configure] leave it: the
    containers are empty. *)
Definition configured (e : Example) : Prop :=
  nodes e = 0 ∧ devices e = 0 ∧ interfaces e = 0.

(** The calls to the simulator in a trace. *)
Definition simulator_calls (t : list Event) : list Event :=
  omap (λ ev, match ev with
              | Simulator_Stop _ | Simulator_Run | Simulator_Destroy => Some ev
              | _ => None
              end) t.

End Steps.

(** C7: for every [size], [CreateNodes] (of either class) creates
    exactly [size] nodes, names node [i] "node(i)" for every [i] from 0
    to [size - 1], and installs on all of them the random-disc position
    allocator centred at (175.0, 175.0) with Rho uniform in [0, 125]
    and the constant-position mobility model. *)
Theorem CreateNodes_creates_size_nodes `{Platform} (s : State) :
  0 ≤ size (this s) < 2 ^ 32 → nodes (this s) = 0 →
  creates_nodes AodvExample.CreateNodes s ∧
  creates_nodes DsdvExample.CreateNodes s.
Proof.
  intros Hsize Hnodes.
  cut (creates_nodes AodvExample.CreateNodes s).
  { intros HA. split; [exact HA|].
    by rewrite <- DsdvExample_CreateNodes in HA. }
  apply CreateNodes_Done; [lia|done].
Qed.

Lemma CreateNodes_creates_size_nodes_witness :
  0 ≤ 5 < 2 ^ 32 ∧
  creates_nodes AodvExample.CreateNodes demo_fresh ∧
  creates_nodes DsdvExample.CreateNodes demo_fresh.
Proof.
  split; [lia|].
  apply (CreateNodes_creates_size_nodes demo_fresh); simpl; [lia|done].
Defined.

(** The names of three nodes. *)
Example node_names_3 `{Platform} :
  node_names 0 3 =
  [Names_Add "node(0)" 0; Names_Add "node(1)" 1; Names_Add "node(2)" 2].
Proof. reflexivity. Qed.

Section RunSteps.
Context `{Platform}.

(** After the first three steps the containers hold [size] entries. *)
Lemma Run_fixed_sequence_AodvExample s :
  2 ≤ size (this s) < 2 ^ 32 →
  0 ≤ nodeRM (this s) ≤ size (this s) - 2 →
  configured (this s) →
  fixed_sequence AodvExample.CreateNodes AodvExample.CreateDevices
    AodvExample.InstallInternetStack AodvExample.InstallApplications
    AodvExample.Run s.
Proof.
  intros Hsize HRM (Hnodes & Hdevices & Hifs).
  pose proof (CreateNodes_Done s ltac:(lia) Hnodes) as E1.
  set (s1 := mkState (set_nodes (size (this s)) (this s)) (draws s)) in *.
  destruct (CreateDevices_Done s1) as [E2 _].
  set (s2 := mkState (set_devices (nodes (this s1)) (this s1)) (draws s1)) in *.
  destruct (InstallInternetStack_Done s2) as [E3 _].
  set (s3 := mkState (set_interfaces (devices (this s2)) (this s2)) (draws s2)) in *.
  destruct (InstallApplications_Done s3) as (numbers & _ & E4);
    [done|done|done|].
  eexists _, _, _, _, s1, s2, s3, _.
  split; [exact E1|]. split; [exact E2|]. split; [exact E3|].
  split; [exact E4|].
  unfold AodvExample.Run.
  erewrite bind_Done by exact E1. erewrite bind_Done by exact E2.
  erewrite bind_Done by exact E3. erewrite bind_Done by exact E4.
  do 4 erewrite bind_Done by reflexivity.
  simpl. by rewrite <- !app_assoc.
Qed.

Lemma Run_fixed_sequence_DsdvExample s :
  2 ≤ size (this s) < 2 ^ 32 →
  0 ≤ nodeRM (this s) ≤ size (this s) - 2 →
  configured (this s) →
  fixed_sequence DsdvExample.CreateNodes DsdvExample.CreateDevices
    DsdvExample.InstallInternetStack DsdvExample.InstallApplications
    DsdvExample.Run s.
Proof.
  intros Hsize HRM (Hnodes & Hdevices & Hifs).
  pose proof (CreateNodes_Done s ltac:(lia) Hnodes) as E1.
  set (s1 := mkState (set_nodes (size (this s)) (this s)) (draws s)) in *.
  destruct (CreateDevices_Done s1) as [_ E2].
  set (s2 := mkState (set_devices (nodes (this s1)) (this s1)) (draws s1)) in *.
  destruct (InstallInternetStack_Done s2) as [_ E3].
  set (s3 := mkState (set_interfaces (devices (this s2)) (this s2)) (draws s2)) in *.
  destruct (InstallApplications_Done s3) as (numbers & _ & E4);
    [done|done|done|].
  eexists _, _, _, _, s1, s2, s3, _.
  split; [exact E1|]. split; [exact E2|]. split; [exact E3|].
  split; [exact E4|].
  unfold DsdvExample.Run.
  erewrite bind_Done by exact E1. erewrite bind_Done by exact E2.
  erewrite bind_Done by exact E3. erewrite bind_Done by exact E4.
  do 4 erewrite bind_Done by reflexivity.
  simpl. by rewrite <- !app_assoc.
Qed.

End RunSteps.

(** C6, as the code has it: for every configuration on which
    [InstallApplications] stays in bounds ([size >= 2] and
    [nodeRM <= size - 2]), [Run] (of either class) executes
    [CreateNodes], [CreateDevices], [InstallInternetStack] and
    [InstallApplications] in that order, then stops the simulator at
    time [duration], runs it and destroys it. *)
Theorem Run_fixed_sequence `{Platform} (s : State) :
  2 ≤ size (this s) < 2 ^ 32 →
  0 ≤ nodeRM (this s) ≤ size (this s) - 2 →
  configured (this s) →
  fixed_sequence AodvExample.CreateNodes AodvExample.CreateDevices
    AodvExample.InstallInternetStack AodvExample.InstallApplications
    AodvExample.Run s ∧
  fixed_sequence DsdvExample.CreateNodes DsdvExample.CreateDevices
    DsdvExample.InstallInternetStack DsdvExample.InstallApplications
    DsdvExample.Run s.
Proof.
  intros. split;
    [by apply Run_fixed_sequence_AodvExample
    |by apply Run_fixed_sequence_DsdvExample].
Qed.

Lemma Run_fixed_sequence_witness :
  2 ≤ 5 < 2 ^ 32 ∧ 0 ≤ 1 ≤ 5 - 2 ∧
  fixed_sequence AodvExample.CreateNodes AodvExample.CreateDevices
    AodvExample.InstallInternetStack AodvExample.InstallApplications
    AodvExample.Run demo_fresh ∧
  fixed_sequence DsdvExample.CreateNodes DsdvExample.CreateDevices
    DsdvExample.InstallInternetStack DsdvExample.InstallApplications
    DsdvExample.Run demo_fresh.
Proof.
  split; [lia|]. split; [lia|].
  apply (Run_fixed_sequence demo_fresh); simpl; [lia|lia|done].
Defined.

(** C6 as stated fails: configured with [--size=0], [Run] leaves the
    bounds of [interfaces] in [InstallApplications] and never gets to
    the simulator. *)
Lemma Run_without_nodes :
  ∃ t s', AodvExample.Run (@mkState demo (set_size 0 AodvExample.AodvExample) 0) =
          Stop (OutOfBounds "interfaces" 4294967295) t s' ∧
          simulator_calls t = [].
Proof. eexists _, _. split; reflexivity. Qed.

(** ** The two classes side by side *)

Section Equivalence.
Context `{Platform}.

(** A file name with the prefix "aodv" replaced by "dsdv". *)
Definition dsdv_prefix (f : string) : string :=
  match f with
  | String "a"%char (String "o"%char (String "d"%char (String "v"%char r))) =>
      "dsdv" +:+ r
  | _ => f
  end.

(** A call of [AodvExample] as [DsdvExample] makes it: the routing
    helper is [DsdvHelper] and output files start with "dsdv"; every
    other call is the same. *)
Definition to_dsdv (ev : Event) : Event :=
  match ev with
  | YansWifiPhyHelper_EnablePcapAll prefix =>
      YansWifiPhyHelper_EnablePcapAll (dsdv_prefix prefix)
  | InternetStackHelper_SetRoutingHelper _ =>
      InternetStackHelper_SetRoutingHelper DsdvHelper
  | OutputStreamWrapper_Create file =>
      OutputStreamWrapper_Create (dsdv_prefix file)
  | PrintRoutingTableAllAt _ t file =>
      PrintRoutingTableAllAt DsdvHelper t (dsdv_prefix file)
  | _ => ev
  end.

Definition map_trace {A} (f : Event → Event) (o : Outcome A) : Outcome A :=
  match o with
  | Done a t s => Done a (f <$> t) s
  | Stop r t s => Stop r (f <$> t) s
  end.

(** From every state, [m2] does what [m1] does, call for call, up to
    [to_dsdv]. *)
Definition simulates {A} (m1 m2 : M A) : Prop :=
  ∀ s, m2 s = map_trace to_dsdv (m1 s).

Lemma simulates_ret {A} (a : A) : simulates (mret a) (mret a).
Proof. by intros s. Qed.
Lemma simulates_emit ev1 ev2 : to_dsdv ev1 = ev2 → simulates (emit ev1) (emit ev2).
Proof. intros <- s. done. Qed.
Lemma simulates_get_this : simulates get_this get_this.
Proof. by intros s. Qed.
Lemma simulates_put_this e : simulates (put_this e) (put_this e).
Proof. by intros s. Qed.
Lemma simulates_rand : simulates rand rand.
Proof. by intros s. Qed.
Lemma simulates_stop {A} r : simulates (stop (A:=A) r) (stop r).
Proof. by intros s. Qed.

Lemma simulates_bind {A B} (m1 m2 : M A) (f1 f2 : A → M B) :
  simulates m1 m2 → (∀ a, simulates (f1 a) (f2 a)) →
  simulates (m1 ≫= f1) (m2 ≫= f2).
Proof.
  intros Hm Hf s. unfold mbind, M_bind. rewrite (Hm s).
  destruct (m1 s) as [a t s'|r t s']; simpl; [|done].
  rewrite (Hf a s'). destruct (f1 a s'); simpl; by rewrite fmap_app.
Qed.

Lemma simulates_for_each {V} (body1 body2 : Z → V → M V) l :
  (∀ i v, simulates (body1 i v) (body2 i v)) →
  ∀ v, simulates (for_each l body1 v) (for_each l body2 v).
Proof.
  intros Hbody. induction l as [|i l IH]; intros v; simpl.
  - apply simulates_ret.
  - by apply simulates_bind.
Qed.

End Equivalence.

Ltac simulates_step :=
  match goal with
  | |- simulates (mret _) (mret _) => apply simulates_ret
  | |- simulates (emit _) (emit _) => apply simulates_emit; reflexivity
  | |- simulates get_this get_this => apply simulates_get_this
  | |- simulates (put_this _) (put_this _) => apply simulates_put_this
  | |- simulates rand rand => apply simulates_rand
  | |- simulates (stop _) (stop _) => apply simulates_stop
  | |- simulates (_ ≫= _) (_ ≫= _) => apply simulates_bind; [|intros ?]
  | |- simulates (for_each _ _ _) (for_each _ _ _) =>
      apply simulates_for_each; intros ??
  | |- simulates (if ?b then _ else _) _ => destruct b
  | |- simulates (match ?o with Some _ => _ | None => _ end) _ => destruct o
  | |- simulates (let '(_, _) := ?p in _) _ => destruct p
  end.

(** C5: on the same arguments and from the same state (object and
    random stream), [Configure] of the two classes does the same, and
    [Run] of [DsdvExample] makes the calls of [Run] of [AodvExample] in
    the same order with the same outcome, except that the routing helper
    is [DsdvHelper] instead of [AodvHelper] and the output file names
    begin with "dsdv" instead of "aodv". *)
Theorem AodvExample_DsdvExample_equivalent `{Platform}
    (argv : list string) (s : State) :
  DsdvExample.DsdvExample = AodvExample.AodvExample ∧
  DsdvExample.Configure argv s = AodvExample.Configure argv s ∧
  DsdvExample.Run s = map_trace to_dsdv (AodvExample.Run s).
Proof.
  split; [reflexivity|]. split; [reflexivity|].
  revert s. change (simulates AodvExample.Run DsdvExample.Run).
  unfold AodvExample.Run, AodvExample.CreateNodes, AodvExample.CreateDevices,
    AodvExample.InstallInternetStack, AodvExample.InstallApplications,
    AodvExample.fill, AodvExample.shuffle, AodvExample.relocate,
    DsdvExample.Run, DsdvExample.CreateNodes, DsdvExample.CreateDevices,
    DsdvExample.InstallInternetStack, DsdvExample.InstallApplications,
    DsdvExample.fill, DsdvExample.shuffle, DsdvExample.relocate,
    nodes_Create, nodes_Get, wifi_Install, address_Assign,
    interfaces_GetAddress, array_get, array_set, stack_array.
  repeat simulates_step.
Qed.

(** The two file names of [AodvExample] as [DsdvExample] has them, and
    the four calls in which the traces of the two [Run]s differ when
    [--pcap] is given, on the demonstration platform. *)
Example dsdv_prefix_files :
  dsdv_prefix "aodv" = "dsdv" ∧ dsdv_prefix "aodv.routes" = "dsdv.routes".
Proof. split; reflexivity. Qed.

Example Run_demo_pcap :
  let s := @mkState demo (set_pcap true AodvExample.AodvExample) 0 in
  let protocol (t : list (@Event demo)) :=
    omap (λ ev, match ev with
                | YansWifiPhyHelper_EnablePcapAll f => Some (None, f)
                | InternetStackHelper_SetRoutingHelper h => Some (Some h, "")
                | OutputStreamWrapper_Create f => Some (None, f)
                | PrintRoutingTableAllAt h _ f => Some (Some h, f)
                | _ => None
                end) t in
  protocol (trace (AodvExample.Run s)) =
    [(None, "aodv"); (Some AodvHelper, ""); (None, "aodv.routes");
     (Some AodvHelper, "aodv.routes")] ∧
  protocol (trace (DsdvExample.Run s)) =
    [(None, "dsdv"); (Some DsdvHelper, ""); (None, "dsdv.routes");
     (Some DsdvHelper, "dsdv.routes")].
Proof. split; reflexivity. Qed.

(** ** What [Configure] hands to [Run]

    The hypotheses on the object in the statements above are met by
    every object [main] runs: [size] and [nodeRM] are [uint32_t] values
    and the containers are empty. *)

Section HandOver.
Context `{Platform}.

Definition in_range (e : Example) : Prop :=
  0 ≤ size e < 2 ^ 32 ∧ 0 ≤ nodeRM e < 2 ^ 32.

Lemma store_hands_over target text e e' :
  in_range e ∧ configured e → store target text e = Some e' →
  in_range e' ∧ configured e'.
Proof.
  intros [[Hs Hn] Hc] Hstore. unfold store in Hstore.
  destruct target; simplify_option_eq; try done.
  - split; [split|]; [by eapply read_uint32_range|done..].
  - split; [split|]; [done|by eapply read_uint32_range|done].
Qed.

Lemma handle_arg_hands_over cmd arg s e :
  in_range (this s) ∧ configured (this s) →
  handle_arg cmd arg s = Done () [] (mkState e (draws s)) →
  in_range e ∧ configured e.
Proof.
  intros Hinv. unfold handle_arg. destruct s as [e0 d]. simpl in *.
  destruct (strip_dashes arg) as [param|]; [|by intros [= <-]].
  destruct (split_eq param) as [name value]. unfold handle_argument.
  destruct (find_item name cmd) as [it|].
  - erewrite bind_Done by reflexivity. simpl.
    destruct (store (item_target it) value e0) as [e'|] eqn:Hstore; [|done].
    intros [= <-]. by eapply store_hands_over.
  - destruct (cmd_other name value); [done|]. by intros [= <-].
Qed.

Lemma handle_args_hands_over cmd args : ∀ s s',
  in_range (this s) ∧ configured (this s) →
  handle_args cmd args s = Done () [] s' →
  in_range (this s') ∧ configured (this s').
Proof.
  induction args as [|arg args IH]; intros s s' Hinv; simpl.
  - by intros [= <-].
  - destruct (handle_arg_outcome cmd arg s) as [[e E]|[code E]].
    + erewrite bind_Done by exact E. rewrite prepend_nil.
      apply IH. simpl. by eapply handle_arg_hands_over.
    + by erewrite bind_Stop by exact E.
Qed.

Lemma Configure_hands_over argv s ok t s' :
  in_range (this s) ∧ configured (this s) →
  AodvExample.Configure argv s = Done ok t s' →
  in_range (this s') ∧ configured (this s').
Proof.
  intros Hinv. rewrite Configure_unfold.
  destruct (handle_args_outcome flags (tail argv) s)
    as [[e E]|(code & s1 & E)]; rewrite E; [|done].
  intros [= _ _ <-]. by eapply handle_args_hands_over.
Qed.

Lemma constructed_hands_over :
  in_range AodvExample.AodvExample ∧ configured AodvExample.AodvExample.
Proof. unfold in_range, configured. simpl. lia. Qed.

End HandOver.

(** The length of [numbers] for one node and for none. *)
Example numbers_length_underflow :
  to_uint32 (1 - 2) = 4294967295 ∧ to_uint32 (0 - 2) = 4294967294.
Proof. split; reflexivity. Qed.

(** * Further properties *)

(** ** What a run emits *)

Section Emits.
Context `{Platform}.

(** Every call [m] makes, whether it runs to its end or is stopped,
    satisfies [Q]. *)
Definition emits_only {A} (Q : Event → Prop) (m : M A) : Prop :=
  ∀ s, Forall Q (trace (m s)).

Lemma emits_only_ret {A} Q (a : A) : emits_only Q (mret a).
Proof. intros s. constructor. Qed.
Lemma emits_only_emit (Q : Event → Prop) ev : Q ev → emits_only Q (emit ev).
Proof. intros ? s. by repeat constructor. Qed.
Lemma emits_only_get_this Q : emits_only Q get_this.
Proof. intros s. constructor. Qed.
Lemma emits_only_put_this Q e : emits_only Q (put_this e).
Proof. intros s. constructor. Qed.
Lemma emits_only_rand Q : emits_only Q rand.
Proof. intros s. constructor. Qed.
Lemma emits_only_stop {A} Q r : emits_only Q (stop (A:=A) r).
Proof. intros s. constructor. Qed.

Lemma emits_only_bind {A B} Q (m : M A) (f : A → M B) :
  emits_only Q m → (∀ a, emits_only Q (f a)) → emits_only Q (m ≫= f).
Proof.
  intros Hm Hf s. specialize (Hm s). unfold mbind, M_bind.
  destruct (m s) as [a t s'|r t s']; [|done].
  specialize (Hf a s'). destruct (f a s'); simpl in *; by apply Forall_app.
Qed.

Lemma emits_only_for_each {V} Q (body : Z → V → M V) l :
  (∀ i v, emits_only Q (body i v)) → ∀ v, emits_only Q (for_each l body v).
Proof.
  intros Hbody. induction l as [|i l IH]; intros v; simpl.
  - apply emits_only_ret.
  - by apply emits_only_bind.
Qed.

(** A reading of the trace that skips the calls in [Q] finds nothing. *)
Lemma omap_emits_only {B} (Q : Event → Prop) (f : Event → option B) t :
  (∀ ev, Q ev → f ev = None) → Forall Q t → omap f t = [].
Proof.
  intros Hf. induction 1 as [|ev t Hev _ IH]; simpl; [done|].
  by rewrite (Hf ev Hev).
Qed.

Lemma bind_assoc {A B C} (m : M A) (f : A → M B) (g : B → M C) s :
  ((m ≫= f) ≫= g) s = (m ≫= λ a, f a ≫= g) s.
Proof.
  unfold mbind, M_bind. destruct (m s) as [a t1 s1|]; [|done].
  destruct (f a s1) as [b t2 s2|]; [|done].
  destruct (g b s2); by rewrite app_assoc.
Qed.

Lemma trace_prepend {A} t0 (o : Outcome A) : trace (prepend t0 o) = t0 ++ trace o.
Proof. by destruct o. Qed.

(** The last four statements of [Run]. *)
Definition simulate : M unit :=
  emit (std_cout "Starting simulation");;
  e ← get_this;
  emit (Simulator_Stop (Seconds (duration e)));;
  emit Simulator_Run;;
  emit Simulator_Destroy.

(** The object with [size] entries in each container. *)
Definition set_up (e : Example) : Example :=
  mkExample (size e) (nodeRM e) (duration e) (pcap e) (size e) (size e) (size e).

(** The calls of the first three steps of [Run]. *)
Definition setup_events (h : RoutingHelper) (prefix : string) (e : Example)
    : list Event :=
  nodes_events (size e) ++
  devices_events prefix (set_nodes (size e) e) ++
  stack_events h prefix (set_devices (size e) (set_nodes (size e) e)).

Lemma setup_Done s :
  0 ≤ size (this s) → nodes (this s) = 0 →
  (AodvExample.CreateNodes;; AodvExample.CreateDevices;;
   AodvExample.InstallInternetStack) s =
    Done () (setup_events AodvHelper "aodv" (this s))
      (mkState (set_up (this s)) (draws s)) ∧
  (DsdvExample.CreateNodes;; DsdvExample.CreateDevices;;
   DsdvExample.InstallInternetStack) s =
    Done () (setup_events DsdvHelper "dsdv" (this s))
      (mkState (set_up (this s)) (draws s)).
Proof.
  intros Hsize Hnodes.
  pose proof (CreateNodes_Done s Hsize Hnodes) as E1.
  set (s1 := mkState (set_nodes (size (this s)) (this s)) (draws s)) in *.
  destruct (CreateDevices_Done s1) as [E2 E2'].
  set (s2 := mkState (set_devices (nodes (this s1)) (this s1)) (draws s1)) in *.
  destruct (InstallInternetStack_Done s2) as [E3 E3'].
  split.
  - erewrite bind_Done by exact E1. erewrite bind_Done by exact E2.
    rewrite E3. done.
  - erewrite bind_Done by exact E1. erewrite bind_Done by exact E2'.
    rewrite E3'. done.
Qed.

Lemma Run_after_setup s :
  0 ≤ size (this s) → nodes (this s) = 0 →
  AodvExample.Run s =
    prepend (setup_events AodvHelper "aodv" (this s))
      ((AodvExample.InstallApplications;; simulate)
         (mkState (set_up (this s)) (draws s))) ∧
  DsdvExample.Run s =
    prepend (setup_events DsdvHelper "dsdv" (this s))
      ((DsdvExample.InstallApplications;; simulate)
         (mkState (set_up (this s)) (draws s))).
Proof.
  intros Hsize Hnodes.
  pose proof (CreateNodes_Done s Hsize Hnodes) as E1.
  set (s1 := mkState (set_nodes (size (this s)) (this s)) (draws s)) in *.
  destruct (CreateDevices_Done s1) as [E2 E2'].
  set (s2 := mkState (set_devices (nodes (this s1)) (this s1)) (draws s1)) in *.
  destruct (InstallInternetStack_Done s2) as [E3 E3'].
  split.
  - unfold AodvExample.Run.
    erewrite bind_Done by exact E1. erewrite bind_Done by exact E2.
    erewrite bind_Done by exact E3.
    rewrite !prepend_prepend. unfold setup_events. by rewrite app_assoc.
  - unfold DsdvExample.Run.
    erewrite bind_Done by exact E1. erewrite bind_Done by exact E2'.
    erewrite bind_Done by exact E3'.
    rewrite !prepend_prepend. unfold setup_events. by rewrite app_assoc.
Qed.

End Emits.

Ltac emits_only_step :=
  match goal with
  | |- emits_only _ (mret _) => apply emits_only_ret
  | |- emits_only _ (emit _) => apply emits_only_emit; done
  | |- emits_only _ get_this => apply emits_only_get_this
  | |- emits_only _ (put_this _) => apply emits_only_put_this
  | |- emits_only _ rand => apply emits_only_rand
  | |- emits_only _ (stop _) => apply emits_only_stop
  | |- emits_only _ (_ ≫= _) => apply emits_only_bind; [|intros ?]
  | |- emits_only _ (for_each _ _ _) => apply emits_only_for_each; intros ??
  | |- emits_only _ (if ?b then _ else _) => destruct b
  | |- emits_only _ (match ?o with Some _ => _ | None => _ end) => destruct o
  | |- emits_only _ (let '(_, _) := ?p in _) => destruct p
  end.

(** ** The setup steps and the simulator *)

Section Setup.
Context `{Platform}.

(** The three steps run to their end and leave [size] entries in each
    container; nothing else of the object changes and no random value is
    drawn. *)
Definition fills_containers (CreateNodes CreateDevices InstallInternetStack : M unit)
    (s : State) : Prop :=
  ∃ t, (CreateNodes;; CreateDevices;; InstallInternetStack) s =
       Done () t (mkState (set_up (this s)) (draws s)).

(** The prefixes pcap tracing was enabled with. *)
Definition pcap_prefixes (t : list Event) : list string :=
  omap (λ ev, match ev with
              | YansWifiPhyHelper_EnablePcapAll p => Some p
              | _ => None
              end) t.

Definition no_simulator_call (ev : Event) : Prop :=
  match ev with
  | Simulator_Stop _ | Simulator_Run | Simulator_Destroy => False
  | _ => True
  end.

Definition no_pcap (ev : Event) : Prop :=
  match ev with YansWifiPhyHelper_EnablePcapAll _ => False | _ => True end.

(** A run that ends has made the three simulator calls last, and none
    before; a run that is stopped has made none. *)
Definition simulator_last (Run : M unit) (s : State) : Prop :=
  match Run s with
  | Done _ t s' =>
      ∃ t', t = t' ++ [ std_cout "Starting simulation";
                        Simulator_Stop (Seconds (duration (this s')));
                        Simulator_Run;
                        Simulator_Destroy ] ∧
            simulator_calls t' = []
  | Stop r t _ => undefined r ∧ simulator_calls t = []
  end.

Lemma steps_no_simulator_call :
  (emits_only no_simulator_call AodvExample.CreateNodes ∧
   emits_only no_simulator_call AodvExample.CreateDevices ∧
   emits_only no_simulator_call AodvExample.InstallInternetStack ∧
   emits_only no_simulator_call AodvExample.InstallApplications) ∧
  (emits_only no_simulator_call DsdvExample.CreateNodes ∧
   emits_only no_simulator_call DsdvExample.CreateDevices ∧
   emits_only no_simulator_call DsdvExample.InstallInternetStack ∧
   emits_only no_simulator_call DsdvExample.InstallApplications).
Proof.
  unfold AodvExample.CreateNodes, AodvExample.CreateDevices,
    AodvExample.InstallInternetStack, AodvExample.InstallApplications,
    AodvExample.fill, AodvExample.shuffle, AodvExample.relocate,
    DsdvExample.CreateNodes, DsdvExample.CreateDevices,
    DsdvExample.InstallInternetStack, DsdvExample.InstallApplications,
    DsdvExample.fill, DsdvExample.shuffle, DsdvExample.relocate,
    nodes_Create, nodes_Get, wifi_Install, address_Assign,
    interfaces_GetAddress, array_get, array_set, stack_array.
  repeat split; repeat emits_only_step.
Qed.

Lemma simulator_calls_none t :
  Forall no_simulator_call t → simulator_calls t = [].
Proof. apply omap_emits_only. by intros []. Qed.

Lemma simulator_last_steps (CN CD IS IA : M unit) s :
  emits_only no_simulator_call CN → emits_only no_simulator_call CD →
  emits_only no_simulator_call IS → emits_only no_simulator_call IA →
  stops_only undefined (CN;; CD;; IS;; IA;; simulate) →
  simulator_last (CN;; CD;; IS;; IA;; simulate) s.
Proof.
  intros H1 H2 H3 H4 Hstop. unfold simulator_last.
  specialize (Hstop s). specialize (H1 s).
  unfold mbind, M_bind in *.
  destruct (CN s) as [[] t1 s1|r t1 s1]; simpl in H1;
    [|split; [done|by apply simulator_calls_none]].
  specialize (H2 s1).
  destruct (CD s1) as [[] t2 s2|r t2 s2]; simpl in H2;
    [|split; [done|apply simulator_calls_none; by rewrite !Forall_app]].
  specialize (H3 s2).
  destruct (IS s2) as [[] t3 s3|r t3 s3]; simpl in H3;
    [|split; [done|apply simulator_calls_none; by rewrite !Forall_app]].
  specialize (H4 s3).
  destruct (IA s3) as [[] t4 s4|r t4 s4]; simpl in H4;
    [|split; [done|apply simulator_calls_none; by rewrite !Forall_app]].
  simpl. exists (t1 ++ t2 ++ t3 ++ t4). split.
  - by rewrite <- !app_assoc.
  - apply simulator_calls_none. by rewrite !Forall_app.
Qed.

Lemma applications_no_pcap :
  emits_only no_pcap (AodvExample.InstallApplications;; simulate) ∧
  emits_only no_pcap (DsdvExample.InstallApplications;; simulate).
Proof.
  unfold AodvExample.InstallApplications, AodvExample.fill,
    AodvExample.shuffle, AodvExample.relocate,
    DsdvExample.InstallApplications, DsdvExample.fill,
    DsdvExample.shuffle, DsdvExample.relocate, simulate,
    nodes_Get, interfaces_GetAddress, array_get, array_set, stack_array.
  split; repeat emits_only_step.
Qed.

Lemma pcap_prefixes_setup h prefix e :
  pcap_prefixes (setup_events h prefix e) = if pcap e then [prefix] else [].
Proof.
  unfold setup_events, nodes_events, pcap_prefixes.
  rewrite !omap_app. simpl.
  rewrite (omap_emits_only no_pcap); [by destruct (pcap e)|by intros []|].
  unfold node_names. apply Forall_fmap, Forall_forall. by intros ??.
Qed.

End Setup.

(** X1: on an object with an empty node container, the three setup steps
    [CreateNodes], [CreateDevices] and [InstallInternetStack] of either
    class run to their end for every [size], zero included, and leave
    exactly [size] nodes, devices and interfaces; the options and the
    random stream are untouched. *)
Theorem setup_fills_containers `{Platform} (s : State) :
  0 ≤ size (this s) → nodes (this s) = 0 →
  fills_containers AodvExample.CreateNodes AodvExample.CreateDevices
    AodvExample.InstallInternetStack s ∧
  fills_containers DsdvExample.CreateNodes DsdvExample.CreateDevices
    DsdvExample.InstallInternetStack s.
Proof.
  intros Hsize Hnodes. destruct (setup_Done s Hsize Hnodes) as [EA ED].
  split; eexists; [exact EA|exact ED].
Qed.

Lemma setup_fills_containers_witness :
  0 ≤ 5 ∧
  fills_containers AodvExample.CreateNodes AodvExample.CreateDevices
    AodvExample.InstallInternetStack demo_fresh ∧
  fills_containers DsdvExample.CreateNodes DsdvExample.CreateDevices
    DsdvExample.InstallInternetStack demo_fresh.
Proof.
  split; [lia|]. apply (setup_fills_containers demo_fresh); simpl; [lia|done].
Defined.

(** X2: in a run of [Run] on an object with an empty node container,
    pcap tracing is enabled exactly when the member [pcap] is set, once,
    with the prefix "aodv" by [AodvExample] and "dsdv" by [DsdvExample],
    also when the run is stopped later on. *)
Theorem Run_pcap_iff_flag `{Platform} (s : State) :
  0 ≤ size (this s) → nodes (this s) = 0 →
  pcap_prefixes (trace (AodvExample.Run s)) =
    (if pcap (this s) then ["aodv"] else []) ∧
  pcap_prefixes (trace (DsdvExample.Run s)) =
    (if pcap (this s) then ["dsdv"] else []).
Proof.
  intros Hsize Hnodes. destruct (Run_after_setup s Hsize Hnodes) as [-> ->].
  destruct applications_no_pcap as [HA HD].
  rewrite !trace_prepend.
  assert (∀ t1 t2, pcap_prefixes (t1 ++ t2) = pcap_prefixes t1 ++ pcap_prefixes t2)
    as Happ by (intros; apply omap_app).
  assert (∀ t, Forall no_pcap t → pcap_prefixes t = []) as Hnone
    by (intros; apply (omap_emits_only no_pcap); [by intros []|done]).
  rewrite !Happ, !pcap_prefixes_setup.
  rewrite (Hnone _ (HA _)), (Hnone _ (HD _)).
  by rewrite !app_nil_r.
Qed.

Lemma Run_pcap_iff_flag_witness :
  0 ≤ 5 ∧
  pcap_prefixes (trace (AodvExample.Run demo_fresh)) = [] ∧
  pcap_prefixes (trace (DsdvExample.Run demo_fresh)) = [].
Proof.
  split; [lia|]. apply (Run_pcap_iff_flag demo_fresh); simpl; [lia|done].
Defined.

(** X3: from every state, [Run] of either class either runs to its end,
    and then its last calls are [Simulator::Stop (Seconds (duration))],
    [Simulator::Run] and [Simulator::Destroy] with no simulator call
    before them, or it is stopped by an access out of bounds, and then
    it has made no simulator call at all. *)
Theorem Run_simulator_last `{Platform} (s : State) :
  simulator_last AodvExample.Run s ∧ simulator_last DsdvExample.Run s.
Proof.
  destruct steps_no_simulator_call as [(A1 & A2 & A3 & A4) (D1 & D2 & D3 & D4)].
  destruct Run_stops_only_undefined as [HA HD].
  split; by apply simulator_last_steps.
Qed.

(** ** When [Run] reaches the simulator *)

Section Completion.
Context `{Platform}.

Definition completes (m : M unit) (s : State) : Prop :=
  ∃ t s', m s = Done () t s'.

Lemma simulate_Done s :
  simulate s =
  Done () [ std_cout "Starting simulation";
            Simulator_Stop (Seconds (duration (this s)));
            Simulator_Run;
            Simulator_Destroy ] s.
Proof. reflexivity. Qed.

Lemma Run_completes_AodvExample s :
  0 ≤ size (this s) < 2 ^ 32 → size (this s) ≠ 1 →
  0 ≤ nodeRM (this s) < 2 ^ 32 → nodes (this s) = 0 →
  completes AodvExample.Run s ↔
  2 ≤ size (this s) ∧ nodeRM (this s) ≤ size (this s) - 2.
Proof.
  intros Hsize Hone HRM Hnodes. unfold completes.
  destruct (Run_after_setup s) as [-> _]; [lia|done|].
  set (s3 := mkState (set_up (this s)) (draws s)).
  assert (ready (this s3)) as Hready by done.
  split.
  - intros (t & s' & E).
    destruct (decide (size (this s) = 0)) as [E0|].
    { erewrite bind_Stop in E
        by (by apply InstallApplications_interfaces_Stop). done. }
    destruct (decide (nodeRM (this s) ≤ size (this s) - 2)); [lia|].
    destruct (InstallApplications_numbers_Stop s3) as (t4 & s4 & E4);
      [simpl; lia|simpl; lia|done|].
    by erewrite bind_Stop in E by exact E4.
  - intros [??].
    destruct (InstallApplications_Done s3) as (numbers & _ & E4);
      [simpl; lia|simpl; lia|done|].
    erewrite bind_Done by exact E4. rewrite simulate_Done. simpl. eauto.
Qed.

Lemma Run_completes_DsdvExample s :
  0 ≤ size (this s) < 2 ^ 32 → size (this s) ≠ 1 →
  0 ≤ nodeRM (this s) < 2 ^ 32 → nodes (this s) = 0 →
  completes DsdvExample.Run s ↔
  2 ≤ size (this s) ∧ nodeRM (this s) ≤ size (this s) - 2.
Proof.
  intros Hsize Hone HRM Hnodes. unfold completes.
  destruct (Run_after_setup s) as [_ ->]; [lia|done|].
  set (s3 := mkState (set_up (this s)) (draws s)).
  assert (ready (this s3)) as Hready by done.
  split.
  - intros (t & s' & E).
    destruct (decide (size (this s) = 0)) as [E0|].
    { erewrite bind_Stop in E
        by (by apply InstallApplications_interfaces_Stop). done. }
    destruct (decide (nodeRM (this s) ≤ size (this s) - 2)); [lia|].
    destruct (InstallApplications_numbers_Stop s3) as (t4 & s4 & E4);
      [simpl; lia|simpl; lia|done|].
    by erewrite bind_Stop in E by exact E4.
  - intros [??].
    destruct (InstallApplications_Done s3) as (numbers & _ & E4);
      [simpl; lia|simpl; lia|done|].
    erewrite bind_Done by exact E4. rewrite simulate_Done. simpl. eauto.
Qed.

End Completion.

(** X4: on an object with an empty node container and a [size] other
    than 1, [Run] of either class runs to its end exactly when
    [size >= 2] and [nodeRM <= size - 2]; with no node, or with more
    nodes to move than [size - 2], it is stopped before the simulator
    starts. *)
Theorem Run_completes_iff_in_bounds `{Platform} (s : State) :
  0 ≤ size (this s) < 2 ^ 32 → size (this s) ≠ 1 →
  0 ≤ nodeRM (this s) < 2 ^ 32 → nodes (this s) = 0 →
  (completes AodvExample.Run s ↔
   2 ≤ size (this s) ∧ nodeRM (this s) ≤ size (this s) - 2) ∧
  (completes DsdvExample.Run s ↔
   2 ≤ size (this s) ∧ nodeRM (this s) ≤ size (this s) - 2).
Proof.
  intros. split;
    [by apply Run_completes_AodvExample|by apply Run_completes_DsdvExample].
Qed.

Lemma Run_completes_iff_in_bounds_witness :
  0 ≤ 5 < 2 ^ 32 ∧ 0 ≤ 1 < 2 ^ 32 ∧
  (completes AodvExample.Run demo_fresh ↔ 2 ≤ 5 ∧ 1 ≤ 5 - 2) ∧
  (completes DsdvExample.Run demo_fresh ↔ 2 ≤ 5 ∧ 1 ≤ 5 - 2).
Proof.
  split; [lia|]. split; [lia|].
  apply (Run_completes_iff_in_bounds demo_fresh); simpl; [lia|lia|lia|done].
Defined.

(** ** The names of the nodes *)

Section Names.
Context `{Platform}.

(** The names given in a trace, each with the node it is given to. *)
Definition names_added (t : list Event) : list (string * Z) :=
  omap (λ ev, match ev with Names_Add name n => Some (name, n) | _ => None end) t.

Lemma append_char_inj a : ∀ b ch,
  a +:+ String ch "" = b +:+ String ch "" → a = b.
Proof.
  induction a as [|x a IH]; intros [|y b] ch; cbn [String.append]; intros E.
  - done.
  - injection E as -> E. by destruct b.
  - injection E as -> E. by destruct a.
  - injection E as -> E. f_equal. by eapply IH.
Qed.

Lemma node_name_inj (i j : Z) :
  "node(" +:+ pretty i +:+ ")" = "node(" +:+ pretty j +:+ ")" → i = j.
Proof.
  intros E. apply (inj (String.append "node(")) in E.
  apply append_char_inj in E. by apply (inj pretty) in E.
Qed.

Lemma names_added_nodes_events sz :
  names_added (nodes_events sz) =
  (λ i, ("node(" +:+ pretty i +:+ ")", i)) <$> seqZ 0 sz.
Proof.
  unfold nodes_events, names_added. rewrite !omap_app. simpl.
  rewrite app_nil_r. unfold node_names.
  induction (seqZ 0 sz) as [|i l IH]; simpl; [done|]. f_equal. exact IH.
Qed.

(** The nodes named are 0, ..., [size - 1], in this order, and no two
    names are the same. *)
Definition names_distinct (CreateNodes : M unit) (s : State) : Prop :=
  (names_added (trace (CreateNodes s))).*2 = seqZ 0 (size (this s)) ∧
  NoDup (names_added (trace (CreateNodes s))).*1.

End Names.

(** X5: [CreateNodes] of either class names each of the nodes 0, ...,
    [size - 1] once, in this order, and gives no two nodes the same
    name. *)
Theorem CreateNodes_names_distinct `{Platform} (s : State) :
  0 ≤ size (this s) → nodes (this s) = 0 →
  names_distinct AodvExample.CreateNodes s ∧
  names_distinct DsdvExample.CreateNodes s.
Proof.
  intros Hsize Hnodes.
  cut (names_distinct AodvExample.CreateNodes s).
  { intros HA. split; [exact HA|].
    by rewrite <- DsdvExample_CreateNodes in HA. }
  unfold names_distinct. rewrite CreateNodes_Done by done. simpl trace.
  rewrite names_added_nodes_events, <- !list_fmap_compose. split.
  - apply list_fmap_id.
  - apply NoDup_fmap_2_strong; [|apply NoDup_seqZ].
    intros i j _ _. apply node_name_inj.
Qed.

Lemma CreateNodes_names_distinct_witness :
  0 ≤ 5 ∧
  names_distinct AodvExample.CreateNodes demo_fresh ∧
  names_distinct DsdvExample.CreateNodes demo_fresh.
Proof.
  split; [lia|].
  apply (CreateNodes_names_distinct demo_fresh); simpl; [lia|done].
Defined.

(** ** More on [InstallApplications] *)

Section MoreInstallApplications.
Context `{Platform}.

(** Every node other than the two ends of the ping is relocated, once. *)
Definition relocates_all_others (InstallApplications : M unit) (s : State)
    : Prop :=
  ∃ t s', InstallApplications s = Done () t s' ∧
    NoDup (scheduled_nodes t) ∧
    ∀ n, n ∈ scheduled_nodes t ↔
         0 ≤ n < size (this s) ∧ n ≠ size (this s) / 2 ∧ n ≠ size (this s) - 1.

(** The object is left as it was; the random stream has moved on by one
    value for each entry of [numbers] and three for each relocation. *)
Definition draws_accounted (InstallApplications : M unit) (s : State) : Prop :=
  ∃ t s', InstallApplications s = Done () t s' ∧
    this s' = this s ∧
    draws s' = (draws s + Z.to_nat (size (this s) - 2) +
                3 * Z.to_nat (nodeRM (this s)))%nat.

(** The second loop over an array of any length: it ends, with a
    rearrangement of the array, one random value drawn per entry and no
    call made. *)
Definition rearranges (shuffle : Z → Z → list Z → M (list Z))
    (numbers : list Z) (s : State) : Prop :=
  ∃ numbers', numbers' ≡ₚ numbers ∧
    for_each (seqZ 0 (Z.of_nat (length numbers)))
      (shuffle (Z.of_nat (length numbers))) numbers s =
    Done numbers' [] (mkState (this s) (draws s + length numbers)).

(** The first loop over an array of [len] entries: it ends with the
    indices from 0 on, [half] left out, in increasing order, and with
    [count] one past the last index written. *)
Definition skips_half (fill : Z → Z → Z * list Z → M (Z * list Z))
    (half len : Z) (s : State) : Prop :=
  for_each (seqZ 0 len) (fill half) (0, replicate (Z.to_nat len) 0) s =
  Done (if decide (len ≤ half) then len else len + 1,
        (λ i, if decide (i < half) then i else i + 1) <$> seqZ 0 len)
    [] s.

End MoreInstallApplications.

(** X6: with [size >= 3] and [nodeRM = size - 2], [InstallApplications]
    of either class relocates every node except the ping source
    [size/2] and the ping destination [size-1], each exactly once. *)
Theorem all_other_nodes_relocated `{Platform} (s : State) :
  3 ≤ size (this s) < 2 ^ 32 →
  nodeRM (this s) = size (this s) - 2 →
  ready (this s) →
  relocates_all_others AodvExample.InstallApplications s ∧
  relocates_all_others DsdvExample.InstallApplications s.
Proof.
  intros Hsize HRM Hready.
  cut (relocates_all_others AodvExample.InstallApplications s).
  { intros HA. split; [exact HA|].
    by rewrite <- DsdvExample_InstallApplications in HA. }
  destruct (InstallApplications_reading s)
    as (numbers & t & s' & Hperm & E & _ & _ & Hn & _); [lia|lia|done|].
  pose proof (candidates_length (this s) ltac:(lia)) as Hlen.
  rewrite <- Hperm in Hlen.
  rewrite take_ge in Hn by lia.
  exists t, s'. split; [done|]. rewrite Hn. split.
  - rewrite Hperm. apply candidates_NoDup.
  - intros n. rewrite Hperm, candidates_elem by done.
    assert (size (this s) / 2 ≤ size (this s) - 2)
      by (Z.to_euclidean_division_equations; lia).
    lia.
Qed.

Lemma all_other_nodes_relocated_witness :
  3 ≤ 5 < 2 ^ 32 ∧
  relocates_all_others AodvExample.InstallApplications (demo_state 5 3) ∧
  relocates_all_others DsdvExample.InstallApplications (demo_state 5 3).
Proof.
  split; [lia|].
  apply (all_other_nodes_relocated (demo_state 5 3)); simpl; [lia|done|done].
Defined.

(** X7: a run of [InstallApplications] (of either class) that stays in
    bounds leaves the driver object unchanged and calls [rand()]
    exactly [(size - 2) + 3 * nodeRM] times: once per entry of [numbers]
    in the second loop and three times per relocation. *)
Theorem InstallApplications_draws `{Platform} (s : State) :
  2 ≤ size (this s) < 2 ^ 32 →
  0 ≤ nodeRM (this s) ≤ size (this s) - 2 →
  ready (this s) →
  draws_accounted AodvExample.InstallApplications s ∧
  draws_accounted DsdvExample.InstallApplications s.
Proof.
  intros Hsize HRM Hready.
  cut (draws_accounted AodvExample.InstallApplications s).
  { intros HA. split; [exact HA|].
    by rewrite <- DsdvExample_InstallApplications in HA. }
  destruct (InstallApplications_Done s Hsize HRM Hready) as (numbers & _ & E).
  eexists _, _. split; [exact E|]. simpl. split; [done|lia].
Qed.

Lemma InstallApplications_draws_witness :
  2 ≤ 5 < 2 ^ 32 ∧ 0 ≤ 2 ≤ 5 - 2 ∧
  draws_accounted AodvExample.InstallApplications (demo_state 5 2) ∧
  draws_accounted DsdvExample.InstallApplications (demo_state 5 2).
Proof.
  split; [lia|]. split; [lia|].
  apply (InstallApplications_draws (demo_state 5 2)); simpl; [lia|lia|done].
Defined.

(** X8: the second loop of [InstallApplications] (of either class), run
    over an array of any length with the length as its modulus, never
    indexes outside the array and only rearranges it: the result holds
    the same values the same number of times. *)
Theorem shuffle_rearranges `{Platform} (numbers : list Z) (s : State) :
  rearranges AodvExample.shuffle numbers s ∧
  rearranges DsdvExample.shuffle numbers s.
Proof.
  cut (rearranges AodvExample.shuffle numbers s).
  { intros HA. split; exact HA. }
  destruct (shuffle_loop (Z.of_nat (length numbers))
              (seqZ 0 (Z.of_nat (length numbers))) numbers s)
    as (numbers' & Hperm & E); [done|apply Forall_seqZ; lia|].
  exists numbers'. split; [done|]. rewrite E.
  by rewrite length_seqZ, Nat2Z.id.
Qed.

(** X9: the first loop of [InstallApplications] (of either class), for
    every [half >= 0] and every array length below 2^31 - 1 (so that
    the [int] counter never passes [INT_MAX]), never indexes outside the
    array and fills it with 0, 1, 2, ... leaving out [half]: entry [i]
    is [i] below [half] and [i + 1] from [half] on; [count] ends at
    [len], or at [len + 1] when [half] was passed. *)
Theorem fill_skips_half `{Platform} (half len : Z) (s : State) :
  0 ≤ half → 0 ≤ len < 2 ^ 31 - 1 →
  skips_half AodvExample.fill half len s ∧
  skips_half DsdvExample.fill half len s.
Proof.
  intros Hhalf Hlen.
  cut (skips_half AodvExample.fill half len s).
  { intros HA. split; exact HA. }
  pose proof (fill_loop half (Z.to_nat len) 0 (replicate (Z.to_nat len) 0) s)
    as Hfill.
  rewrite Z2Nat.id in Hfill by lia.
  replace (to_int (counter half 0)) with 0 in Hfill
    by (unfold counter; by rewrite decide_True by lia).
  specialize (Hfill ltac:(lia) ltac:(lia) ltac:(rewrite length_replicate; lia)).
  unfold skips_half. rewrite Hfill. simpl take. rewrite Z.add_0_l.
  rewrite to_int_id by (unfold counter; case_decide; lia).
  done.
Qed.

Lemma fill_skips_half_witness :
  0 ≤ 2 ∧ 0 ≤ 3 < 2 ^ 31 - 1 ∧
  skips_half AodvExample.fill 2 3 demo_fresh ∧
  skips_half DsdvExample.fill 2 3 demo_fresh.
Proof.
  split; [lia|]. split; [lia|].
  apply (fill_skips_half 2 3 demo_fresh); lia.
Defined.

(** The array of five nodes after the first loop. *)
Example fill_five_nodes :
  for_each (seqZ 0 3) (AodvExample.fill 2) (0, [0; 0; 0]) demo_fresh =
  Done (4, [0; 1; 3]) [] demo_fresh.
Proof. reflexivity. Qed.

(** ** [main] from end to end *)

Section MainTrace.
Context `{Platform}.

(** The calls that come before the simulation is built: output, the
    command line and the seed. *)
Definition startup_call (ev : Event) : bool :=
  match ev with
  | std_cout _ | CommandLine_AddValue _ _ _ | CommandLine_Parse _
  | SeedManager_SetSeed _ => true
  | _ => false
  end.

(** The trace from its first call that builds the simulation. *)
Fixpoint from_first_setup_call (t : list Event) : list Event :=
  match t with
  | [] => []
  | ev :: t' => if startup_call ev then from_first_setup_call t' else t
  end.

Definition no_seed (ev : Event) : Prop :=
  match ev with SeedManager_SetSeed _ => False | _ => True end.

Lemma from_first_setup_call_app pre r :
  forallb startup_call pre = true →
  from_first_setup_call (pre ++ r) = from_first_setup_call r.
Proof.
  induction pre as [|ev pre IH]; simpl; [done|].
  destruct (startup_call ev); [auto|done].
Qed.

Lemma seeds_no_seed r :
  Forall no_seed r → seeds r = [] ∧ seeds (from_first_setup_call r) = [].
Proof.
  induction 1 as [|ev r Hev Hr [IH1 IH2]]; simpl; [done|].
  assert (seeds (ev :: r) = []) as Hcons.
  { unfold seeds in *. simpl. destruct ev; try done. }
  split; [exact Hcons|]. by destruct (startup_call ev).
Qed.

Lemma Run_no_seed :
  emits_only no_seed AodvExample.Run ∧ emits_only no_seed DsdvExample.Run.
Proof.
  unfold AodvExample.Run, AodvExample.CreateNodes, AodvExample.CreateDevices,
    AodvExample.InstallInternetStack, AodvExample.InstallApplications,
    AodvExample.fill, AodvExample.shuffle, AodvExample.relocate,
    DsdvExample.Run, DsdvExample.CreateNodes, DsdvExample.CreateDevices,
    DsdvExample.InstallInternetStack, DsdvExample.InstallApplications,
    DsdvExample.fill, DsdvExample.shuffle, DsdvExample.relocate,
    nodes_Create, nodes_Get, wifi_Install, address_Assign,
    interfaces_GetAddress, array_get, array_set, stack_array.
  split; repeat emits_only_step.
Qed.

(** What [main] does once a protocol is selected, for the [Configure]
    and [Run] of the selected class. *)
Lemma selected_trace (Run : M unit) greeting argv s :
  emits_only no_seed Run →
  ∃ pre r,
    trace ((emit (std_cout greeting);;
            put_this AodvExample.AodvExample;;
            ok ← AodvExample.Configure argv;
            (if negb ok then stop (FatalError "Configuration failed. Aborted.")
             else mret ());;
            Run;;
            mret 0) s) = pre ++ r ∧
    forallb startup_call pre = true ∧ (length (seeds pre) ≤ 1)%nat ∧
    Forall no_seed r.
Proof.
  intros HRun.
  do 2 erewrite bind_Done by reflexivity. rewrite !prepend_prepend.
  set (s0 := mkState AodvExample.AodvExample (draws s)).
  pose proof (Configure_unfold argv s0) as EC.
  destruct (handle_args_outcome flags (tail argv) s0)
    as [[e E]|(code & s' & E)]; rewrite E in EC.
  - erewrite bind_Done by exact EC. simpl negb. cbv iota.
    erewrite bind_Done by reflexivity.
    rewrite !prepend_prepend, trace_prepend.
    eexists _, _. split; [reflexivity|]. split; [reflexivity|].
    split; [simpl; lia|].
    specialize (HRun (mkState e (draws s0))). unfold mbind, M_bind.
    destruct (Run (mkState e (draws s0))); simpl in *; [|done].
    by rewrite app_nil_r.
  - erewrite bind_Stop by exact EC. rewrite trace_prepend.
    exists ([std_cout greeting] ++ [] ++ registration ++ [CommandLine_Parse argv]), [].
    split; [by rewrite app_nil_r|]. split; [reflexivity|].
    split; [simpl; lia|constructor].
Qed.

Lemma main_trace select argv s :
  ∃ pre r, trace (main select argv s) = pre ++ r ∧
    forallb startup_call pre = true ∧ (length (seeds pre) ≤ 1)%nat ∧
    Forall no_seed r.
Proof.
  destruct Run_no_seed as [HA HD]. unfold main.
  erewrite bind_Done by reflexivity. rewrite trace_prepend.
  destruct (Ascii.eqb select "a"); [|destruct (Ascii.eqb select "d")].
  - destruct (selected_trace AodvExample.Run "Initiating AODV test..." argv s HA)
      as (pre & r & -> & Hpre & Hlen & Hr).
    exists (std_cout "Enter 'a' for AODV, or 'd' for DSDV" :: pre), r. done.
  - destruct (selected_trace DsdvExample.Run "Initiating DSDV test..." argv s HD)
      as (pre & r & E & Hpre & Hlen & Hr).
    exists (std_cout "Enter 'a' for AODV, or 'd' for DSDV" :: pre), r.
    split; [|done]. simpl. f_equal. exact E.
  - eexists _, []. split; [by rewrite app_nil_r|]. split; [reflexivity|].
    split; [simpl; lia|constructor].
Qed.

(** [main] ran the simulation to its end, with exit status 0, on the
    object [e] that [Configure] left. *)
Definition runs_simulation (select : ascii) (argv : list string) (s : State)
    (e : Example) : Prop :=
  ∃ t s', main select argv s = Done 0 t s' ∧
    simulator_calls t =
    [Simulator_Stop (Seconds (duration e)); Simulator_Run; Simulator_Destroy].

End MainTrace.

(** X10: in every run of [main], whatever the selection and the
    arguments, the seed is set at most once, and never after the first
    call that builds the simulation (creating nodes, installing devices,
    the internet stack or applications, the simulator): only output and
    command-line calls come before [SeedManager::SetSeed]. *)
Theorem main_seed_before_setup `{Platform}
    (select : ascii) (argv : list string) (s : State) :
  (length (seeds (trace (main select argv s))) ≤ 1)%nat ∧
  seeds (from_first_setup_call (trace (main select argv s))) = [].
Proof.
  destruct (main_trace select argv s) as (pre & r & -> & Hpre & Hlen & Hr).
  destruct (seeds_no_seed r Hr) as [Hr1 Hr2].
  rewrite from_first_setup_call_app by done. split; [|done].
  unfold seeds in *. rewrite omap_app, Hr1, app_nil_r. done.
Qed.

Section MainRuns.
Context `{Platform}.

Lemma Run_simulator_calls s :
  2 ≤ size (this s) < 2 ^ 32 →
  0 ≤ nodeRM (this s) ≤ size (this s) - 2 →
  configured (this s) →
  (∃ t s', AodvExample.Run s = Done () t s' ∧
     simulator_calls t =
     [Simulator_Stop (Seconds (duration (this s))); Simulator_Run;
      Simulator_Destroy]) ∧
  (∃ t s', DsdvExample.Run s = Done () t s' ∧
     simulator_calls t =
     [Simulator_Stop (Seconds (duration (this s))); Simulator_Run;
      Simulator_Destroy]).
Proof.
  intros Hsize HRM Hconf.
  destruct steps_no_simulator_call as [(A1 & A2 & A3 & A4) (D1 & D2 & D3 & D4)].
  split.
  - destruct (Run_fixed_sequence_AodvExample s Hsize HRM Hconf)
      as (t1 & t2 & t3 & t4 & s1 & s2 & s3 & s4 & E1 & E2 & E3 & E4 & E).
    eexists _, _. split; [exact E|].
    specialize (A1 s). specialize (A2 s1). specialize (A3 s2). specialize (A4 s3).
    rewrite E1 in A1. rewrite E2 in A2. rewrite E3 in A3. rewrite E4 in A4.
    unfold simulator_calls. rewrite !omap_app.
    fold (simulator_calls t1). fold (simulator_calls t2).
    fold (simulator_calls t3). fold (simulator_calls t4).
    by rewrite !simulator_calls_none.
  - destruct (Run_fixed_sequence_DsdvExample s Hsize HRM Hconf)
      as (t1 & t2 & t3 & t4 & s1 & s2 & s3 & s4 & E1 & E2 & E3 & E4 & E).
    eexists _, _. split; [exact E|].
    specialize (D1 s). specialize (D2 s1). specialize (D3 s2). specialize (D4 s3).
    rewrite E1 in D1. rewrite E2 in D2. rewrite E3 in D3. rewrite E4 in D4.
    unfold simulator_calls. rewrite !omap_app.
    fold (simulator_calls t1). fold (simulator_calls t2).
    fold (simulator_calls t3). fold (simulator_calls t4).
    by rewrite !simulator_calls_none.
Qed.

Lemma selected_runs (Run : M unit) greeting argv s t s1 :
  AodvExample.Configure argv (mkState AodvExample.AodvExample (draws s)) =
    Done true t s1 →
  (∃ t' s', Run s1 = Done () t' s' ∧
     simulator_calls t' =
     [Simulator_Stop (Seconds (duration (this s1))); Simulator_Run;
      Simulator_Destroy]) →
  ∃ t' s',
    (emit (std_cout "Enter 'a' for AODV, or 'd' for DSDV");;
     emit (std_cout greeting);;
     put_this AodvExample.AodvExample;;
     ok ← AodvExample.Configure argv;
     (if negb ok then stop (FatalError "Configuration failed. Aborted.")
      else mret ());;
     Run;;
     mret 0) s = Done 0 t' s' ∧
    simulator_calls t' =
    [Simulator_Stop (Seconds (duration (this s1))); Simulator_Run;
     Simulator_Destroy].
Proof.
  intros EC (t' & s' & ER & Hsim).
  do 3 erewrite bind_Done by reflexivity.
  erewrite bind_Done by exact EC. simpl negb. cbv iota.
  erewrite bind_Done by reflexivity.
  erewrite bind_Done by exact ER.
  rewrite !prepend_prepend. simpl prepend.
  eexists _, _. split; [reflexivity|].
  rewrite Configure_unfold in EC.
  destruct (handle_args flags (tail argv) _); [|done].
  injection EC as <- _.
  rewrite !app_nil_r. simpl. exact Hsim.
Qed.

End MainRuns.

(** X11: whenever [Configure] accepts the arguments and leaves an object
    with [size >= 2] and [nodeRM <= size - 2], [main] with selection 'a'
    or 'd' runs the whole simulation and returns 0: the simulator is
    stopped at the parsed [duration], run and destroyed, once each. *)
Theorem main_runs_simulation `{Platform}
    (argv : list string) (s : State) (t : list Event) (s1 : State) :
  AodvExample.Configure argv (mkState AodvExample.AodvExample (draws s)) =
    Done true t s1 →
  2 ≤ size (this s1) →
  nodeRM (this s1) ≤ size (this s1) - 2 →
  runs_simulation "a" argv s (this s1) ∧ runs_simulation "d" argv s (this s1).
Proof.
  intros EC Hsize HRM.
  destruct (Configure_hands_over argv
              (mkState AodvExample.AodvExample (draws s)) true t s1
              constructed_hands_over EC) as [[Hs Hn] Hconf].
  destruct (Run_simulator_calls s1) as [HA HD]; [lia|lia|done|].
  split.
  - exact (selected_runs AodvExample.Run "Initiating AODV test..."
             argv s t s1 EC HA).
  - exact (selected_runs DsdvExample.Run "Initiating DSDV test..."
             argv s t s1 EC HD).
Qed.

Lemma main_runs_simulation_witness :
  runs_simulation "a" ["protocols"; "--size=10"; "--fail=8"; "--time=20"]
    demo_fresh (@mkExample demo 10 8 (Demo.of_Z 20) false 0 0 0) ∧
  runs_simulation "d" ["protocols"; "--size=10"; "--fail=8"; "--time=20"]
    demo_fresh (@mkExample demo 10 8 (Demo.of_Z 20) false 0 0 0).
Proof.
  apply (main_runs_simulation
           ["protocols"; "--size=10"; "--fail=8"; "--time=20"] demo_fresh
           (registration ++
            [CommandLine_Parse
               ["protocols"; "--size=10"; "--fail=8"; "--time=20"];
             SeedManager_SetSeed 1234])
           (@mkState demo (@mkExample demo 10 8 (Demo.of_Z 20) false 0 0 0) 0));
    [reflexivity|simpl; lia|simpl; lia].
Defined.

(** ** What [Configure] keeps, and the order of a run in bounds *)

Section Keeps.
Context `{Platform}.

(** [Configure] creates nothing and draws nothing: whenever it returns,
    the containers are still empty, [size] and [nodeRM] are [uint32_t]
    values, and the random stream is where it was. *)
Definition keeps_configured (Configure : list string → M bool)
    (argv : list string) (s : State) : Prop :=
  match Configure argv s with
  | Done _ _ s' =>
      in_range (this s') ∧ configured (this s') ∧ draws s' = draws s
  | Stop _ _ _ => True
  end.

Definition relocation_call (ev : Event) : Prop :=
  match ev with Simulator_Schedule_SetPosition _ _ _ => True | _ => False end.

(** The ping is set up first (helper, [Verbose], installation, start at
    0 s, stop at [duration - 0.001] s); every later call schedules a
    relocation. *)
Definition ping_then_relocations (InstallApplications : M unit) (s : State)
    : Prop :=
  ∃ rel s', InstallApplications s = Done () (ping_events (this s) ++ rel) s' ∧
    Forall relocation_call rel.

Lemma relocations_relocation_call e ns : ∀ d,
  Forall relocation_call (relocations e d ns).
Proof. induction ns as [|n ns IH]; intros d; simpl; by constructor. Qed.

End Keeps.

(** X12: [Configure] of either class, started on an object with empty
    containers whose [size] and [nodeRM] are [uint32_t] values, returns
    such an object: it creates no node, device or interface, and it
    makes no call of [rand()]. *)
Theorem Configure_keeps_configured `{Platform} (argv : list string) (s : State) :
  in_range (this s) → configured (this s) →
  keeps_configured AodvExample.Configure argv s ∧
  keeps_configured DsdvExample.Configure argv s.
Proof.
  intros Hrange Hconf.
  cut (keeps_configured AodvExample.Configure argv s).
  { intros HA. split; [exact HA|].
    by rewrite <- DsdvExample_Configure in HA. }
  unfold keeps_configured.
  destruct (AodvExample.Configure argv s) as [ok t s'|] eqn:EC; [|done].
  destruct (Configure_hands_over argv s ok t s' (conj Hrange Hconf) EC)
    as [Hr Hc].
  split; [done|]. split; [done|].
  rewrite Configure_unfold in EC.
  destruct (handle_args_outcome flags (tail argv) s)
    as [[e E]|(code & s1 & E)]; rewrite E in EC; [|done].
  by injection EC as _ _ <-.
Qed.

Lemma Configure_keeps_configured_witness :
  keeps_configured AodvExample.Configure ["protocols"; "--size=7"] demo_fresh ∧
  keeps_configured DsdvExample.Configure ["protocols"; "--size=7"] demo_fresh.
Proof.
  apply (Configure_keeps_configured ["protocols"; "--size=7"] demo_fresh).
  - unfold in_range. simpl. lia.
  - done.
Defined.

(** X13: in a run of [InstallApplications] (of either class) that stays
    in bounds, the ping application is set up before anything else, with
    [Verbose] on, started at 0 s and stopped at [duration - 0.001] s,
    and every call after that schedules a relocation. *)
Theorem ping_before_relocations `{Platform} (s : State) :
  2 ≤ size (this s) < 2 ^ 32 →
  0 ≤ nodeRM (this s) ≤ size (this s) - 2 →
  ready (this s) →
  ping_then_relocations AodvExample.InstallApplications s ∧
  ping_then_relocations DsdvExample.InstallApplications s.
Proof.
  intros Hsize HRM Hready.
  cut (ping_then_relocations AodvExample.InstallApplications s).
  { intros HA. split; [exact HA|].
    by rewrite <- DsdvExample_InstallApplications in HA. }
  destruct (InstallApplications_Done s Hsize HRM Hready) as (numbers & _ & E).
  eexists _, _. split; [exact E|]. apply relocations_relocation_call.
Qed.

Lemma ping_before_relocations_witness :
  2 ≤ 5 < 2 ^ 32 ∧ 0 ≤ 2 ≤ 5 - 2 ∧
  ping_then_relocations AodvExample.InstallApplications (demo_state 5 2) ∧
  ping_then_relocations DsdvExample.InstallApplications (demo_state 5 2).
Proof.
  split; [lia|]. split; [lia|].
  apply (ping_before_relocations (demo_state 5 2)); simpl; [lia|lia|done].
Defined.
